(** * Teleparty show/episode loader: schema, load and reports

    A shallow embedding of [assignment.py]: the three phases
    [create_database_and_tables], [ingest_data] and [run_reports], the
    top-level [main] block, and the Python and SQLite operations they use.

    Conventions of the embedding.
    - A Python [str] is a sequence of Unicode code points; the model keeps
      the code points below 256 (the Latin-1 block), the character with code
      point [n] being the [ascii] with code [n].
    - A Python [int] is a [Z].  A Python [float] is either NaN or a [real]:
      an infinity or the rational number a finite binary64 value denotes.
      The value [float(...)] gives a string is a parameter of the
      development ([py_float]); nothing below depends on how it rounds.
    - A raised exception is the left injection of [result]; the effects of a
      phase (the committed content of [teleparty.db] and the lines printed)
      are threaded through the state-and-error monad [M].
    - A [csv.DictReader] row is a record of the named fields, every field a
      string (rows as long as the header). *)

From Stdlib Require Import List String Ascii Bool Arith ZArith QArith Lia.
From Stdlib Require Import Permutation Sorted.
Import ListNotations.

Set Implicit Arguments.
Close Scope Q_scope.

(** ** Exceptions and results *)

Inductive exn : Type :=
| ValueError            (* int() or float() on a malformed literal *)
| OverflowError         (* Python int too large to convert to SQLite INTEGER *)
| IntegrityError (constraint : string)  (* sqlite3.IntegrityError *)
| OperationalError (msg : string)       (* sqlite3.OperationalError *)
| FileNotFoundError (path : string).

Definition result (A : Type) : Type := (exn + A)%type.

Definition ok {A} (a : A) : result A := inr a.
Definition raise {A} (e : exn) : result A := inl e.

Definition rbind {A B} (r : result A) (k : A -> result B) : result B :=
  match r with
  | inl e => inl e
  | inr a => k a
  end.

Definition rmap {A B} (f : A -> B) (r : result A) : result B :=
  rbind r (fun a => ok (f a)).

(** A list comprehension or [for] loop whose body may raise: the first
    exception, in list order, escapes. *)
Fixpoint map_result {A B} (f : A -> result B) (l : list A) : result (list B) :=
  match l with
  | [] => ok []
  | a :: l' =>
      rbind (f a) (fun b => rbind (map_result f l') (fun bs => ok (b :: bs)))
  end.

Definition is_FileNotFoundError (e : exn) : bool :=
  match e with
  | FileNotFoundError _ => true
  | _ => false
  end.

(** ** Python strings and numbers *)

Module Py.

Definition code (c : ascii) : nat := nat_of_ascii c.

(** The ten characters ["0"] .. ["9"]. *)
Definition is_ascii_digit (c : ascii) : bool :=
  (48 <=? code c) && (code c <=? 57).

Definition digit_value (c : ascii) : Z := Z.of_nat (code c - 48).

(** [Py_UNICODE_ISDIGIT]: below 256 the characters with a digit value are
    the ASCII digits and the superscripts U+00B2, U+00B3 and U+00B9. *)
Definition unicode_isdigit (c : ascii) : bool :=
  is_ascii_digit c
  || (code c =? 178) || (code c =? 179) || (code c =? 185).

(** The characters [int()] skips around a literal: the C-locale blanks
    (tab, LF, VT, FF, CR, space), and NEL (U+0085) and NBSP (U+00A0),
    which the conversion first rewrites to a space. *)
Definition int_isspace (c : ascii) : bool :=
  ((9 <=? code c) && (code c <=? 13)) || (code c =? 32)
  || (code c =? 133) || (code c =? 160).

(** [str.isdigit()]: at least one character, and every character a digit. *)
Definition isdigit (s : string) : bool :=
  match list_ascii_of_string s with
  | [] => false
  | cs => forallb unicode_isdigit cs
  end.

(** Truth value of a string in a condition: non-empty. *)
Definition truthy (s : string) : bool :=
  match s with
  | EmptyString => false
  | String _ _ => true
  end.

(** [s.replace(old, '')] for a one-character [old]: every occurrence of
    the character is removed. *)
Fixpoint replace_with_empty (old : ascii) (s : string) : string :=
  match s with
  | EmptyString => EmptyString
  | String c s' =>
      if Ascii.eqb c old then replace_with_empty old s'
      else String c (replace_with_empty old s')
  end.

Fixpoint skip_space (cs : list ascii) : list ascii :=
  match cs with
  | c :: cs' => if int_isspace c then skip_space cs' else cs
  | [] => []
  end.

Definition scan_sign (cs : list ascii) : Z * list ascii :=
  match cs with
  | c :: cs' =>
      if Ascii.eqb c "+" then (1%Z, cs')
      else if Ascii.eqb c "-" then ((-1)%Z, cs')
      else (1%Z, cs)
  | [] => (1%Z, [])
  end.

Definition starts_with_underscore (cs : list ascii) : bool :=
  match cs with
  | c :: _ => Ascii.eqb c "_"
  | [] => false
  end.

(** The digit loop of [PyLong_FromString] in base 10: digits, with single
    underscores allowed between two digits.  Below 256 the only decimal
    characters ([Py_UNICODE_TODECIMAL]) are the ASCII digits; the
    superscripts are digits for [isdigit] but not decimal.  Returns the value, the number
    of digits and the unread rest; [None] on a doubled or trailing
    underscore. *)
Fixpoint scan_digits (prev_underscore : bool) (n : nat) (acc : Z)
    (cs : list ascii) : option (Z * nat * list ascii) :=
  match cs with
  | c :: cs' =>
      if is_ascii_digit c
      then scan_digits false (S n) (10 * acc + digit_value c)%Z cs'
      else if Ascii.eqb c "_"%char
      then (if prev_underscore then None else scan_digits true n acc cs')
      else (if prev_underscore then None else Some (acc, n, cs))
  | [] => if prev_underscore then None else Some (acc, n, [])
  end.

(** [sys.int_info.default_max_str_digits]. *)
Definition max_str_digits : nat := 4300.

(** [int(s)] for a string [s]: blanks, an optional sign, the digits,
    blanks, and nothing else; [ValueError] otherwise, and for a literal of
    more than [max_str_digits] digits. *)
Definition int (s : string) : result Z :=
  let cs := skip_space (list_ascii_of_string s) in
  let '(sign, cs1) := scan_sign cs in
  if starts_with_underscore cs1 then raise ValueError
  else
    match scan_digits false 0 0%Z cs1 with
    | None => raise ValueError
    | Some (v, n, rest) =>
        match n, skip_space rest with
        | O, _ => raise ValueError
        | _, _ :: _ => raise ValueError
        | _, [] =>
            if max_str_digits <? n then raise ValueError
            else ok (sign * v)%Z
        end
    end.

(** The value of a Python [float]. *)
Inductive real : Type :=
| NegInf
| Fin (q : Q)
| PosInf.

Inductive float : Type :=
| NaN
| Real (r : real).

End Py.

(** ** The SQLite storage layer *)

Module Sql.

Inductive value : Type :=
| Null
| Integer (z : Z)
| RealV (r : Py.real)
| Text (s : string).

Inductive coltype : Type := TEXT | INTEGER | REAL.

(** What a [CREATE TABLE] statement declares. *)
Record schema : Type := {
  columns : list (string * coltype);
  primary_key : list string;
  foreign_keys : list (string * (string * string))
}.

Record table (R : Type) : Type := {
  tbl_schema : schema;
  rows : list R                  (* in rowid order: the order of insertion *)
}.

(** Order of the REAL values. *)
Definition real_leb (a b : Py.real) : bool :=
  match a, b with
  | Py.NegInf, _ => true
  | _, Py.PosInf => true
  | Py.Fin x, Py.Fin y => Qle_bool x y
  | _, _ => false
  end.

Definition real_eqb (a b : Py.real) : bool := real_leb a b && real_leb b a.

(** Equality of two stored values as a unique index sees it: a NULL is
    equal to nothing, not even to another NULL. *)
Definition value_eqb (a b : value) : bool :=
  match a, b with
  | Integer x, Integer y => Z.eqb x y
  | Text x, Text y => String.eqb x y
  | RealV x, RealV y => real_eqb x y
  | Integer x, RealV y => real_eqb (Py.Fin (inject_Z x)) y
  | RealV x, Integer y => real_eqb x (Py.Fin (inject_Z y))
  | _, _ => false
  end.

(** Two rows collide on a key when every key column holds equal non-NULL
    values.  SQLite lets the columns of a PRIMARY KEY of an ordinary
    (rowid) table be NULL, and such rows never collide. *)
Definition key_conflict (k1 k2 : list value) : bool :=
  match k1 with
  | [] => false
  | _ => forallb (fun p => value_eqb (fst p) (snd p)) (combine k1 k2)
  end.

Section Insert.
Variable R : Type.
Variable column : R -> string -> value.

Definition key_of (t : table R) (r : R) : list value :=
  map (column r) (primary_key (tbl_schema t)).

Definition violates_primary_key (t : table R) (r : R) : bool :=
  existsb (fun r' => key_conflict (key_of t r') (key_of t r)) (rows t).

Definition append_row (t : table R) (r : R) : table R :=
  {| tbl_schema := tbl_schema t; rows := rows t ++ [r] |}.

(** [INSERT INTO t VALUES ...] with the default conflict policy. *)
Definition insert (constraint : string) (t : table R) (r : R)
  : result (table R) :=
  if violates_primary_key t r then raise (IntegrityError constraint)
  else ok (append_row t r).

(** [INSERT OR IGNORE INTO t VALUES ...]. *)
Definition insert_or_ignore (t : table R) (r : R) : table R :=
  if violates_primary_key t r then t else append_row t r.
End Insert.

(** Binding a Python [int] to a statement parameter: SQLite integers are
    64-bit signed. *)
Definition bind_int (z : Z) : result Z :=
  if ((- 2 ^ 63 <=? z) && (z <? 2 ^ 63))%Z then ok z else raise OverflowError.

Definition bind_optional_int (o : option Z) : result (option Z) :=
  match o with
  | None => ok None
  | Some z => rmap Some (bind_int z)
  end.

(** Binding a Python [float]: a NaN is stored as NULL. *)
Definition bind_optional_float (o : option Py.float) : option Py.real :=
  match o with
  | Some (Py.Real r) => Some r
  | _ => None
  end.

(** Comparison of nullable values in ORDER BY: NULL is the smallest. *)
Definition null_first_leb {A} (leb : A -> A -> bool) (a b : option A) : bool :=
  match a, b with
  | None, _ => true
  | Some _, None => false
  | Some x, Some y => leb x y
  end.

Definition null_first_compare (a b : option Z) : comparison :=
  match a, b with
  | None, None => Eq
  | None, Some _ => Lt
  | Some _, None => Gt
  | Some x, Some y => Z.compare x y
  end.

(** The sorter behind ORDER BY, for the order "[before a b]: [a] may come
    before [b]".  Rows that tie keep the order in which they were read. *)
Fixpoint sorter_insert {A} (before : A -> A -> bool) (x : A) (l : list A)
  : list A :=
  match l with
  | [] => [x]
  | y :: l' => if before x y then x :: l else y :: sorter_insert before x l'
  end.

Definition order_by {A} (before : A -> A -> bool) (l : list A) : list A :=
  fold_right (sorter_insert before) [] l.

(** [COUNT(DISTINCT x)]: the number of distinct non-NULL values. *)
Definition count_distinct (xs : list (option Z)) : nat :=
  List.length (nodup Z.eq_dec (flat_map (fun o => match o with Some z => [z] | None => [] end) xs)).

End Sql.

(** ** The two tables *)

Module Shows.
Local Open Scope string_scope.
Local Open Scope list_scope.
Record row : Type := {
  Code : string;
  Title : string;
  Rating : option Py.real;
  RatingCount : option Z;
  Rank : option Z
}.

Definition column (r : row) (name : string) : Sql.value :=
  let opt {A} (f : A -> Sql.value) (o : option A) :=
    match o with Some a => f a | None => Sql.Null end in
  if String.eqb name "Code" then Sql.Text (Code r)
  else if String.eqb name "Title" then Sql.Text (Title r)
  else if String.eqb name "Rating" then opt Sql.RealV (Rating r)
  else if String.eqb name "RatingCount" then opt Sql.Integer (RatingCount r)
  else if String.eqb name "Rank" then opt Sql.Integer (Rank r)
  else Sql.Null.

(** [CREATE TABLE shows (...)]. *)
Definition schema : Sql.schema := {|
  Sql.columns := [("Code", Sql.TEXT); ("Title", Sql.TEXT); ("Rating", Sql.REAL);
                  ("RatingCount", Sql.INTEGER); ("Rank", Sql.INTEGER)];
  Sql.primary_key := ["Code"];
  Sql.foreign_keys := []
|}.
End Shows.

Module Episodes.
Local Open Scope string_scope.
Local Open Scope list_scope.
Record row : Type := {
  id_code : string;
  parent_code : string;
  Season : option Z;
  Episode : option Z;
  Rating : option Py.real
}.

Definition column (r : row) (name : string) : Sql.value :=
  let opt {A} (f : A -> Sql.value) (o : option A) :=
    match o with Some a => f a | None => Sql.Null end in
  if String.eqb name "id_code" then Sql.Text (id_code r)
  else if String.eqb name "parent_code" then Sql.Text (parent_code r)
  else if String.eqb name "Season" then opt Sql.Integer (Season r)
  else if String.eqb name "Episode" then opt Sql.Integer (Episode r)
  else if String.eqb name "Rating" then opt Sql.RealV (Rating r)
  else Sql.Null.

(** [CREATE TABLE episodes (...)]. *)
Definition schema : Sql.schema := {|
  Sql.columns := [("id_code", Sql.TEXT); ("parent_code", Sql.TEXT);
                  ("Season", Sql.INTEGER); ("Episode", Sql.INTEGER);
                  ("Rating", Sql.REAL)];
  Sql.primary_key := ["parent_code"; "Season"; "Episode"];
  Sql.foreign_keys := [("parent_code", ("shows", "Code"))]
|}.
End Episodes.

(** The content of [teleparty.db]: each of the two tables, when it exists. *)
Record db : Type := {
  shows : option (Sql.table Shows.row);
  episodes : option (Sql.table Episodes.row)
}.

(** ** The two CSV sources *)

Module ShowCsv.
(** A row of [all-series-ep-average.csv], by column name. *)
Record row : Type := {
  Code : string;
  Title : string;
  Rating : string;
  Rating_Count : string;         (* column 'Rating Count' *)
  Rank : string
}.
End ShowCsv.

Module EpisodeCsv.
(** A row of [all-episode-ratings.csv], by column name. *)
Record row : Type := {
  id_code : string;
  Code : string;
  Season : string;
  Episode : string;
  Rating : string
}.
End EpisodeCsv.

(** The files next to the script: [None] when a file is absent. *)
Record files : Type := {
  show_csv : option (list ShowCsv.row);
  episode_csv : option (list EpisodeCsv.row)
}.

(** ** Effects: the database file, the open connection, standard output *)

(** A printed line.  Literal lines are kept verbatim; a formatted line keeps
    the values it interpolates. *)
Inductive line : Type :=
| Line (text : string)
| IngestedLine (n : nat)           (* Ingested {n} records into 'shows' table. *)
| RatedLine (title : string) (rating : option Py.real)
                                   (*   - {title} (Rating: {rating}) *)
| SeasonsLine (title : string) (season_count : nat)
                                   (*   - {title} ({season_count} seasons) *)
| ShowLine (title : string)        (*   - Show: {title} *)
| RatingCountLine (rating_count : option Z)
| RankLine (rank : option Z)
| TotalEpisodesLine (ep_count : nat)
| TotalSeasonsLine (season_count : nat)
| FileNotFoundLine (e : exn)       (* ERROR: Could not find a CSV file. {e} *)
| UnexpectedErrorLine (e : exn).   (* An unexpected error occurred: {e} *)

(** [disk] is the committed content of the database file.  [pending] is the
    content as the open connection sees it while it has an uncommitted
    transaction; it reaches [disk] only through [commit]. *)
Record world : Type := {
  disk : db;
  pending : option db;
  stdout : list line
}.

Definition M (A : Type) : Type := world -> result A * world.

Definition ret {A} (a : A) : M A := fun w => (ok a, w).

Definition bind {A B} (m : M A) (k : A -> M B) : M B :=
  fun w =>
    match m w with
    | (inl e, w') => (inl e, w')
    | (inr a, w') => k a w'
    end.

Definition lift {A} (r : result A) : M A := fun w => (r, w).

Declare Scope monad_scope.
Delimit Scope monad_scope with monad.
Notation "x <- c1 ;; c2" := (bind c1 (fun x => c2))
  (at level 61, c1 at next level, right associativity) : monad_scope.
Notation "c1 ;; c2" := (bind c1 (fun _ => c2))
  (at level 61, right associativity) : monad_scope.
Notation "x <-? c1 ;; c2" := (rbind c1 (fun x => c2))
  (at level 61, c1 at next level, right associativity) : monad_scope.
Open Scope monad_scope.

Definition with_pending (p : option db) (w : world) : world :=
  {| disk := disk w; pending := p; stdout := stdout w |}.

Definition print (l : line) : M unit :=
  fun w => (ok tt, {| disk := disk w; pending := pending w;
                      stdout := stdout w ++ [l] |}).

(** What the connection reads: its own uncommitted changes, if any. *)
Definition view (w : world) : db :=
  match pending w with
  | Some d => d
  | None => disk w
  end.

(** [sqlite3.connect('teleparty.db')]: a new connection, no transaction. *)
Definition connect : M unit := fun w => (ok tt, with_pending None w).

(** The transaction the [sqlite3] module opens before a data-modifying
    statement when none is open. *)
Definition begin : M unit := fun w => (ok tt, with_pending (Some (view w)) w).

(** A schema statement.  Outside a transaction it is committed at once. *)
Definition execute_ddl (stmt : db -> result db) : M unit :=
  fun w =>
    match stmt (view w) with
    | inl e => (inl e, w)
    | inr d' =>
        match pending w with
        | Some _ => (ok tt, with_pending (Some d') w)
        | None => (ok tt, {| disk := d'; pending := None; stdout := stdout w |})
        end
    end.

(** One run of a prepared INSERT inside the open transaction.  When it
    raises, what earlier runs changed stays in the transaction. *)
Definition execute_step (stmt : db -> result db) : M unit :=
  fun w =>
    match stmt (view w) with
    | inl e => (inl e, w)
    | inr d' => (ok tt, with_pending (Some d') w)
    end.

Fixpoint run_each {P} (step : P -> db -> result db) (params : list P) : M unit :=
  match params with
  | [] => ret tt
  | p :: ps => execute_step (step p) ;; run_each step ps
  end.

(** [cursor.executemany(sql, params)] for an INSERT: the statement is
    compiled, the transaction opened, and the statement run once per
    parameter tuple, in order. *)
Definition executemany {P} (prepare : db -> result unit)
    (step : P -> db -> result db) (params : list P) : M unit :=
  (fun w => (prepare (view w), w)) ;;
  begin ;;
  run_each step params.

Definition fetch {A} (query : db -> result A) : M A :=
  fun w => (query (view w), w).

(** [conn.commit()]. *)
Definition commit : M unit :=
  fun w => (ok tt, {| disk := view w; pending := None; stdout := stdout w |}).

(** [conn.close()]; also what becomes of a connection that is dropped:
    changes that were not committed are lost. *)
Definition close : M unit := fun w => (ok tt, with_pending None w).

(** ** Statements *)

Definition no_such_table (name : string) : exn :=
  OperationalError ("no such table: " ++ name).

Definition drop_table_if_exists_shows (d : db) : result db :=
  ok {| shows := None; episodes := episodes d |}.

Definition drop_table_if_exists_episodes (d : db) : result db :=
  ok {| shows := shows d; episodes := None |}.

Definition create_table_shows (d : db) : result db :=
  match shows d with
  | Some _ => raise (OperationalError "table shows already exists")
  | None =>
      ok {| shows := Some {| Sql.tbl_schema := Shows.schema; Sql.rows := [] |};
            episodes := episodes d |}
  end.

Definition create_table_episodes (d : db) : result db :=
  match episodes d with
  | Some _ => raise (OperationalError "table episodes already exists")
  | None =>
      ok {| shows := shows d;
            episodes := Some {| Sql.tbl_schema := Episodes.schema; Sql.rows := [] |} |}
  end.

Definition show_params : Type :=
  (string * string * option Py.float * option Z * option Z)%type.

Definition episode_params : Type :=
  (string * string * option Z * option Z * option Py.float)%type.

Definition shows_exists (d : db) : result unit :=
  match shows d with
  | Some _ => ok tt
  | None => raise (no_such_table "shows")
  end.

Definition episodes_exists (d : db) : result unit :=
  match episodes d with
  | Some _ => ok tt
  | None => raise (no_such_table "episodes")
  end.

Definition bind_show (p : show_params) : result Shows.row :=
  let '(code, title, rating, rating_count, rank) := p in
  rc <-? Sql.bind_optional_int rating_count ;;
  rk <-? Sql.bind_optional_int rank ;;
  ok {| Shows.Code := code; Shows.Title := title;
        Shows.Rating := Sql.bind_optional_float rating;
        Shows.RatingCount := rc; Shows.Rank := rk |}.

Definition bind_episode (p : episode_params) : result Episodes.row :=
  let '(id_code, code, season, episode, rating) := p in
  s <-? Sql.bind_optional_int season ;;
  e <-? Sql.bind_optional_int episode ;;
  ok {| Episodes.id_code := id_code; Episodes.parent_code := code;
        Episodes.Season := s; Episodes.Episode := e;
        Episodes.Rating := Sql.bind_optional_float rating |}.

(** [INSERT INTO shows (Code, Title, Rating, RatingCount, Rank)
     VALUES (?, ?, ?, ?, ?)] *)
Definition insert_into_shows (p : show_params) (d : db) : result db :=
  match shows d with
  | None => raise (no_such_table "shows")
  | Some t =>
      r <-? bind_show p ;;
      t' <-? Sql.insert Shows.column "UNIQUE constraint failed: shows.Code" t r ;;
      ok {| shows := Some t'; episodes := episodes d |}
  end.

(** [INSERT OR IGNORE INTO episodes
     (id_code, parent_code, Season, Episode, Rating) VALUES (?, ?, ?, ?, ?)] *)
Definition insert_or_ignore_into_episodes (p : episode_params) (d : db)
  : result db :=
  match episodes d with
  | None => raise (no_such_table "episodes")
  | Some t =>
      r <-? bind_episode p ;;
      ok {| shows := shows d;
            episodes := Some (Sql.insert_or_ignore Episodes.column t r) |}
  end.

(** ** Schema initializer *)

Definition create_database_and_tables : M unit :=
  connect ;;
  execute_ddl drop_table_if_exists_shows ;;
  execute_ddl drop_table_if_exists_episodes ;;
  execute_ddl create_table_shows ;;
  execute_ddl create_table_episodes ;;
  commit ;;
  close ;;
  print (Line "Database 'teleparty.db' and tables created successfully.").

(** ** Loader *)

Section Script.

(** The float a string denotes for [float(s)]; [None] when the string is
    not a float literal. *)
Variable py_float : string -> option Py.float.

(** [float(s)] *)
Definition float (s : string) : result Py.float :=
  match py_float s with
  | Some f => ok f
  | None => raise ValueError
  end.

(** [int(x.replace(',', '')) if x else None] *)
Definition rating_count_cleaned (x : string) : result (option Z) :=
  if Py.truthy x then rmap Some (Py.int (Py.replace_with_empty "," x))
  else ok None.

(** [float(x) if x else None] *)
Definition float_if_nonempty (x : string) : result (option Py.float) :=
  if Py.truthy x then rmap Some (float x) else ok None.

(** [int(x) if x else None] *)
Definition int_if_nonempty (x : string) : result (option Z) :=
  if Py.truthy x then rmap Some (Py.int x) else ok None.

(** [int(x) if x.isdigit() else None] *)
Definition int_if_isdigit (x : string) : result (option Z) :=
  if Py.isdigit x then rmap Some (Py.int x) else ok None.

(** The tuple appended to [to_db] for a row of the show source. *)
Definition show_tuple (row : ShowCsv.row) : result show_params :=
  rating_count <-? rating_count_cleaned (ShowCsv.Rating_Count row) ;;
  rating <-? float_if_nonempty (ShowCsv.Rating row) ;;
  rank <-? int_if_nonempty (ShowCsv.Rank row) ;;
  ok (ShowCsv.Code row, ShowCsv.Title row, rating, rating_count, rank).

(** The tuple appended to [to_db] for a row of the episode source. *)
Definition episode_tuple (row : EpisodeCsv.row) : result episode_params :=
  season <-? int_if_isdigit (EpisodeCsv.Season row) ;;
  episode <-? int_if_isdigit (EpisodeCsv.Episode row) ;;
  rating <-? float_if_nonempty (EpisodeCsv.Rating row) ;;
  ok (EpisodeCsv.id_code row, EpisodeCsv.Code row, season, episode, rating).

(** [open(path)] followed by reading every row. *)
Definition read_csv {R} (path : string) (file : option (list R)) : M (list R) :=
  match file with
  | Some csv_rows => ret csv_rows
  | None => lift (raise (FileNotFoundError path))
  end.

Definition ingest_data (fs : files) : M unit :=
  connect ;;
  reader <- read_csv "all-series-ep-average.csv" (show_csv fs) ;;
  to_db <- lift (map_result show_tuple reader) ;;
  executemany shows_exists insert_into_shows to_db ;;
  print (IngestedLine (List.length to_db)) ;;
  reader <- read_csv "all-episode-ratings.csv" (episode_csv fs) ;;
  to_db <- lift (map_result episode_tuple reader) ;;
  executemany episodes_exists insert_or_ignore_into_episodes to_db ;;
  print (Line "Ingested data into 'episodes' table (duplicates were ignored).") ;;
  commit ;;
  close.

(** ** Reporter *)

(** [WHERE Rating <= 5.0]: a NULL rating does not satisfy the comparison. *)
Definition low_rated (s : Shows.row) : bool :=
  match Shows.Rating s with
  | Some x => Sql.real_leb x (Py.Fin 5)
  | None => false
  end.

Definition rating_desc (a b : Shows.row) : bool :=
  Sql.null_first_leb Sql.real_leb (Shows.Rating b) (Shows.Rating a).

(** [SELECT Title, Rating FROM shows WHERE Rating <= 5.0
     ORDER BY Rating DESC] *)
Definition query1 (d : db) : result (list (string * option Py.real)) :=
  match shows d with
  | None => raise (no_such_table "shows")
  | Some t =>
      ok (map (fun s => (Shows.Title s, Shows.Rating s))
            (Sql.order_by rating_desc (filter low_rated (Sql.rows t))))
  end.

(** [FROM shows s JOIN episodes e ON s.Code = e.parent_code
     WHERE s.Rating <= 5.0] *)
Definition low_rated_join (ss : list Shows.row) (es : list Episodes.row)
  : list (Shows.row * Episodes.row) :=
  flat_map
    (fun s =>
       map (fun e => (s, e))
         (filter (fun e => String.eqb (Shows.Code s) (Episodes.parent_code e)) es))
    (filter low_rated ss).

(** The order in which the groups of [GROUP BY s.Title] are formed.  Titles
    compare under the BINARY collation, character by character on their
    codes, a proper prefix first.  SQLite sorts the joined rows on the
    grouping term and gives that sort the direction of the ORDER BY term of
    the statement when both clauses have one term: here DESC, so the groups
    come from the highest title down to the lowest. *)
Definition title_desc (a b : string) : bool := String.leb b a.

(** The groups of [GROUP BY s.Title]: one per title among the joined rows,
    with its [COUNT(DISTINCT e.Season)], from the highest title to the
    lowest. *)
Definition group_by_title (joined : list (Shows.row * Episodes.row))
  : list (string * nat) :=
  map
    (fun title =>
       (title,
        Sql.count_distinct
          (map (fun p => Episodes.Season (snd p))
             (filter (fun p => String.eqb (Shows.Title (fst p)) title) joined))))
    (Sql.order_by title_desc
       (nodup string_dec (map (fun p => Shows.Title (fst p)) joined))).

Definition season_count_desc (a b : string * nat) : bool := snd b <=? snd a.

(** [SELECT s.Title, COUNT(DISTINCT e.Season) as season_count ...
     GROUP BY s.Title HAVING season_count > 1 ORDER BY season_count DESC]:
    the sort on the count is stable, so groups with equal counts stay in
    the order of [group_by_title], the higher title first. *)
Definition query2 (d : db) : result (list (string * nat)) :=
  match shows d, episodes d with
  | None, _ => raise (no_such_table "shows")
  | _, None => raise (no_such_table "episodes")
  | Some ts, Some te =>
      ok (Sql.order_by season_count_desc
            (filter (fun g => 1 <? snd g)
               (group_by_title (low_rated_join (Sql.rows ts) (Sql.rows te)))))
  end.

(** [ORDER BY RatingCount DESC, Rank ASC] *)
Definition query3_order (a b : Shows.row) : bool :=
  match Sql.null_first_compare (Shows.RatingCount b) (Shows.RatingCount a) with
  | Lt => true
  | Gt => false
  | Eq =>
      match Sql.null_first_compare (Shows.Rank a) (Shows.Rank b) with
      | Gt => false
      | _ => true
      end
  end.

(** [ORDER BY RatingCount ASC, Rank DESC] *)
Definition query4_order (a b : Shows.row) : bool :=
  match Sql.null_first_compare (Shows.RatingCount a) (Shows.RatingCount b) with
  | Lt => true
  | Gt => false
  | Eq =>
      match Sql.null_first_compare (Shows.Rank b) (Shows.Rank a) with
      | Gt => false
      | _ => true
      end
  end.

Definition show_result : Type := (string * string * option Z * option Z)%type.

Definition select_show (s : Shows.row) : show_result :=
  (Shows.Code s, Shows.Title s, Shows.RatingCount s, Shows.Rank s).

(** [SELECT Code, Title, RatingCount, Rank FROM shows
     ORDER BY RatingCount DESC, Rank ASC LIMIT 1], then [fetchone()]. *)
Definition query3 (d : db) : result (option show_result) :=
  match shows d with
  | None => raise (no_such_table "shows")
  | Some t =>
      ok (option_map select_show
            (hd_error (Sql.order_by query3_order (Sql.rows t))))
  end.

(** [SELECT Code, Title, RatingCount, Rank FROM shows
     WHERE RatingCount IS NOT NULL
     ORDER BY RatingCount ASC, Rank DESC LIMIT 1], then [fetchone()]. *)
Definition query4 (d : db) : result (option show_result) :=
  match shows d with
  | None => raise (no_such_table "shows")
  | Some t =>
      ok (option_map select_show
            (hd_error
               (Sql.order_by query4_order
                  (filter (fun s => match Shows.RatingCount s with
                                    | Some _ => true
                                    | None => false
                                    end)
                     (Sql.rows t)))))
  end.

(** [SELECT COUNT( * ), COUNT(DISTINCT Season) FROM episodes
     WHERE parent_code = ?] *)
Definition episode_counts (show_code : string) (d : db) : result (nat * nat) :=
  match episodes d with
  | None => raise (no_such_table "episodes")
  | Some t =>
      let matching :=
        filter (fun e => String.eqb (Episodes.parent_code e) show_code)
          (Sql.rows t) in
      ok (List.length matching,
          Sql.count_distinct (map Episodes.Season matching))
  end.

Fixpoint print_each {A} (fmt : A -> line) (results : list A) : M unit :=
  match results with
  | [] => ret tt
  | r :: rs => print (fmt r) ;; print_each fmt rs
  end.

Definition dashes : line := Line "------------------------------".

Definition report1 : M unit :=
  print (Line "1. Shows with a rating less than or equal to 5:") ;;
  results <- fetch query1 ;;
  match results with
  | _ :: _ => print_each (fun r => RatedLine (fst r) (snd r)) results
  | [] => print (Line "  No shows found with a rating of 5 or less.")
  end ;;
  print dashes.

Definition report2 : M unit :=
  print (Line "2. Of the shows above, which have more than 1 season:") ;;
  results <- fetch query2 ;;
  match results with
  | _ :: _ => print_each (fun r => SeasonsLine (fst r) (snd r)) results
  | [] => print (Line "  No shows with a low rating also have more than 1 season.")
  end ;;
  print dashes.

(** The body shared by reports 3 and 4: the show, then its episode and
    season counts. *)
Definition print_show (result : show_result) : M unit :=
  let '(show_code, show_title, rating_count, rank) := result in
  print (ShowLine show_title) ;;
  print (RatingCountLine rating_count) ;;
  print (RankLine rank) ;;
  counts <- fetch (episode_counts show_code) ;;
  print (TotalEpisodesLine (fst counts)) ;;
  print (TotalSeasonsLine (snd counts)).

Definition report3 : M unit :=
  print (Line "3. Show(s) with the highest rating count and lowest rank:") ;;
  result <- fetch query3 ;;
  match result with
  | Some r => print_show r
  | None =>
      print (Line "  Could not determine the show with the highest rating count and lowest rank.")
  end ;;
  print dashes.

Definition report4 : M unit :=
  print (Line "4. Show(s) with the lowest rating count and highest rank:") ;;
  result <- fetch query4 ;;
  match result with
  | Some r => print_show r
  | None =>
      print (Line "  Could not determine the show with the lowest rating count and highest rank.")
  end ;;
  print dashes.

Definition reports_banner : line :=
  Line (String "010" ("--- Generating Reports ---" ++ String "010" "")).

Definition run_reports : M unit :=
  connect ;;
  print reports_banner ;;
  report1 ;;
  report2 ;;
  report3 ;;
  report4 ;;
  close.

(** ** Main block *)

Definition pipeline (fs : files) : M unit :=
  create_database_and_tables ;;
  ingest_data fs ;;
  run_reports.

(** The [try] block with its two handlers.  When the script ends every
    connection is gone, and with it any transaction left open. *)
Definition main (fs : files) (w : world) : world :=
  match pipeline fs w with
  | (inr _, w') => with_pending None w'
  | (inl e, w') =>
      let handler :=
        if is_FileNotFoundError e
        then print (FileNotFoundLine e) ;;
             print (Line "Please make sure your CSV files are in the same folder as the script.")
        else print (UnexpectedErrorLine e) in
      with_pending None (snd (handler w'))
  end.

End Script.

(** * Specification vocabulary *)

(** ** The store after schema initialization *)

(** The two tables as the schema initializer leaves them: declared as in the
    CREATE TABLE statements, without rows. *)
Definition empty_shows : Sql.table Shows.row :=
  {| Sql.tbl_schema := Shows.schema; Sql.rows := [] |}.

Definition empty_episodes : Sql.table Episodes.row :=
  {| Sql.tbl_schema := Episodes.schema; Sql.rows := [] |}.

Definition fresh_db : db :=
  {| shows := Some empty_shows; episodes := Some empty_episodes |}.

Definition created_line : line :=
  Line "Database 'teleparty.db' and tables created successfully.".

(** A machine on which the script has not run yet. *)
Definition blank_world : world :=
  {| disk := {| shows := None; episodes := None |}; pending := None; stdout := [] |}.

Definition initialized_world : world :=
  {| disk := fresh_db; pending := None; stdout := [created_line] |}.

(** ** Field conversions *)

(** The number a string of decimal digits denotes. *)
Definition decimal_value (ds : list ascii) : Z :=
  fold_left (fun acc c => (10 * acc + Py.digit_value c)%Z) ds 0%Z.

Definition is_comma (c : ascii) : bool := Ascii.eqb c ",".

(** The characters of a field that are not commas, in order. *)
Definition without_commas (x : string) : list ascii :=
  filter (fun c => negb (is_comma c)) (list_ascii_of_string x).

(** ** Reports *)

(** What report 1 prints for a given result set. *)
Definition report1_lines (results : list (string * option Py.real)) : list line :=
  Line "1. Shows with a rating less than or equal to 5:"
  :: match results with
     | [] => [Line "  No shows found with a rating of 5 or less."]
     | _ => map (fun r => RatedLine (fst r) (snd r)) results
     end
  ++ [dashes].

(** [p] may come before [q] in a list sorted by rating, highest first. *)
Definition rating_not_below (p q : string * option Py.real) : Prop :=
  exists x y, snd p = Some x /\ snd q = Some y /\ Sql.real_leb y x = true.

(** The episode rows of a show. *)
Definition episodes_of (code : string) (te : Sql.table Episodes.row)
  : list Episodes.row :=
  filter (fun e => String.eqb (Episodes.parent_code e) code) (Sql.rows te).

(** ** The load as a function of the store *)

(** Running a statement once per parameter tuple, as a function of the
    content the connection sees. *)
Fixpoint fold_steps {P} (step : P -> db -> result db) (params : list P) (d : db)
  : result db :=
  match params with
  | [] => ok d
  | p :: ps => rbind (step p d) (fold_steps step ps)
  end.

Definition opened {R} (path : string) (file : option (list R)) : result (list R) :=
  match file with
  | Some csv_rows => ok csv_rows
  | None => raise (FileNotFoundError path)
  end.

(** The two halves of [ingest_data] as functions of the content the
    connection sees: the exception raised, or the content after the half. *)
Definition load_shows (py_float : string -> option Py.float) (fs : files) (d : db)
  : result db :=
  reader <-? opened "all-series-ep-average.csv" (show_csv fs) ;;
  to_db <-? map_result (show_tuple py_float) reader ;;
  _ <-? shows_exists d ;;
  fold_steps insert_into_shows to_db d.

Definition load_episodes (py_float : string -> option Py.float) (fs : files)
    (d : db) : result db :=
  reader <-? opened "all-episode-ratings.csv" (episode_csv fs) ;;
  to_db <-? map_result (episode_tuple py_float) reader ;;
  _ <-? episodes_exists d ;;
  fold_steps insert_or_ignore_into_episodes to_db d.

(** The content [ingest_data] commits when it returns, or the exception it
    raises, as a function of the files and of the committed content it
    starts from. *)
Definition load (py_float : string -> option Py.float) (fs : files) (d : db)
  : result db :=
  d1 <-? load_shows py_float fs d ;;
  load_episodes py_float fs d1.

(** What [ingest_data] has printed when it stops. *)
Definition load_lines (py_float : string -> option Py.float) (fs : files)
    (d : db) (n : nat) : list line :=
  match load_shows py_float fs d with
  | inl _ => []
  | inr d1 =>
      IngestedLine n
      :: match load_episodes py_float fs d1 with
         | inl _ => []
         | inr _ =>
             [Line "Ingested data into 'episodes' table (duplicates were ignored)."]
         end
  end.

(** What the handlers of the main block print for an exception. *)
Definition handler_lines (e : exn) : list line :=
  if is_FileNotFoundError e
  then [FileNotFoundLine e;
        Line "Please make sure your CSV files are in the same folder as the script."]
  else [UnexpectedErrorLine e].

(** The [Code] component of a tuple bound to the INSERT of the show load. *)
Definition tuple_code (p : show_params) : string :=
  let '(code, _, _, _, _) := p in code.

Definition shows_code_violation : exn :=
  IntegrityError "UNIQUE constraint failed: shows.Code".

(** Partial progress left in place: the load raises partway through the
    episode load, and the committed store then holds a row for every row of
    the show source and at least one episode row. *)
Definition leaves_partial_progress (py_float : string -> option Py.float)
    (fs : files) (w : world) : Prop :=
  exists e w' d1 reader ts te,
    ingest_data py_float fs w = (inl e, w')
    /\ load_shows py_float fs (disk w) = inr d1
    /\ show_csv fs = Some reader
    /\ shows (disk w') = Some ts
    /\ List.length (Sql.rows ts) = List.length reader
    /\ episodes (disk w') = Some te
    /\ Sql.rows te <> [].

(** ** Episode keys *)

Definition key : Type := (string * option Z * option Z)%type.

(** The (parent_code, Season, Episode) tuple of an episode row. *)
Definition episode_key (r : Episodes.row) : key :=
  (Episodes.parent_code r, Episodes.Season r, Episodes.Episode r).

(** Both the season and the episode number are known. *)
Definition key_complete (r : Episodes.row) : bool :=
  match Episodes.Season r, Episodes.Episode r with
  | Some _, Some _ => true
  | _, _ => false
  end.

Definition key_incomplete (r : Episodes.row) : bool := negb (key_complete r).

Definition option_Z_eqb (a b : option Z) : bool :=
  match a, b with
  | Some x, Some y => Z.eqb x y
  | None, None => true
  | _, _ => false
  end.

Definition key_eqb (k k' : key) : bool :=
  let '(c, s, e) := k in
  let '(c', s', e') := k' in
  String.eqb c c' && option_Z_eqb s s' && option_Z_eqb e e'.

Definition has_key (k : key) (r : Episodes.row) : bool :=
  key_eqb (episode_key r) k.

Definition key_dec (k k' : key) : {k = k'} + {k <> k'}.
Proof.
  repeat decide equality; apply Z.eq_dec || apply string_dec.
Defined.

(** The stored row of a row of the episode source: the conversions of
    [episode_tuple], then the binding of the tuple. *)
Definition episode_row_of (py_float : string -> option Py.float)
    (row : EpisodeCsv.row) : result Episodes.row :=
  rbind (episode_tuple py_float row) bind_episode.

(** One [INSERT OR IGNORE] on the rows of the episode table. *)
Definition ignore_step (stored : list Episodes.row) (r : Episodes.row)
  : list Episodes.row :=
  if key_complete r && existsb (has_key (episode_key r)) stored
  then stored
  else stored ++ [r].

(** The rows kept from a list read in order, given the rows read before it:
    a row is dropped when its key is complete and an earlier row has the
    same key; every other row is kept. *)
Fixpoint first_occurrences (earlier rows : list Episodes.row)
  : list Episodes.row :=
  match rows with
  | [] => []
  | r :: rows' =>
      if key_complete r && existsb (has_key (episode_key r)) earlier
      then first_occurrences (earlier ++ [r]) rows'
      else r :: first_occurrences (earlier ++ [r]) rows'
  end.

(** ** Sample data *)

(** A stand-in for [float] on the rating literals of the examples. *)
Definition example_float (s : string) : option Py.float :=
  if String.eqb s "4.0" then Some (Py.Real (Py.Fin 4))
  else if String.eqb s "4.5" then Some (Py.Real (Py.Fin (9 # 2)))
  else if String.eqb s "5.0" then Some (Py.Real (Py.Fin 5))
  else if String.eqb s "6.0" then Some (Py.Real (Py.Fin 6))
  else None.

Definition show_csv_row (code title rating rating_count rank : string)
  : ShowCsv.row :=
  {| ShowCsv.Code := code; ShowCsv.Title := title; ShowCsv.Rating := rating;
     ShowCsv.Rating_Count := rating_count; ShowCsv.Rank := rank |}.

Definition episode_csv_row (id_code code season episode rating : string)
  : EpisodeCsv.row :=
  {| EpisodeCsv.id_code := id_code; EpisodeCsv.Code := code;
     EpisodeCsv.Season := season; EpisodeCsv.Episode := episode;
     EpisodeCsv.Rating := rating |}.

Definition show_row (code title : string) (rating : option Py.real)
    (rating_count rank : option Z) : Shows.row :=
  {| Shows.Code := code; Shows.Title := title; Shows.Rating := rating;
     Shows.RatingCount := rating_count; Shows.Rank := rank |}.

Definition episode_row (id_code parent_code : string) (season episode : option Z)
    (rating : option Py.real) : Episodes.row :=
  {| Episodes.id_code := id_code; Episodes.parent_code := parent_code;
     Episodes.Season := season; Episodes.Episode := episode;
     Episodes.Rating := rating |}.

(** A show row with a given rating and no rating count or rank. *)
Definition rated_show (code title : string) (rating : option Py.real) : Shows.row :=
  {| Shows.Code := code; Shows.Title := title; Shows.Rating := rating;
     Shows.RatingCount := None; Shows.Rank := None |}.

(** A loaded Show table with the ratings 3.0, 5.0, 5.5 and null. *)
Definition four_ratings_db : db :=
  {| shows :=
       Some {| Sql.tbl_schema := Shows.schema;
               Sql.rows := [rated_show "A" "Three" (Some (Py.Fin 3));
                            rated_show "B" "Five" (Some (Py.Fin 5));
                            rated_show "C" "Five and a half" (Some (Py.Fin (11 # 2)));
                            rated_show "D" "Unrated" None] |};
     episodes := Some empty_episodes |}.

(** The end-to-end scenario: two shows, two episodes of the first. *)
Definition scenario_files : files :=
  {| show_csv := Some [show_csv_row "S1" "Alpha" "4.0" "1,000" "2";
                       show_csv_row "S2" "Beta" "6.0" "500" "1"];
     episode_csv := Some [episode_csv_row "e1" "S1" "1" "1" "4.0";
                          episode_csv_row "e2" "S1" "2" "1" "4.5"] |}.


(** An episode source whose second row has the season [U+00B2]
    (superscript two). *)
Definition superscript_season_files : files :=
  {| show_csv := Some [show_csv_row "S1" "Alpha" "4.0" "1,000" "2"];
     episode_csv := Some [episode_csv_row "e1" "S1" "1" "1" "4.0";
                          episode_csv_row "e2" "S1" (String "178" "") "1" "4.0"] |}.

(** Two different shows with one title, each with a single season: show
    [A] has season 1 only, show [B] has season 2 only. *)
Definition same_title_files : files :=
  {| show_csv := Some [show_csv_row "A" "Dup" "4.0" "10" "1";
                       show_csv_row "B" "Dup" "4.0" "20" "2"];
     episode_csv := Some [episode_csv_row "e1" "A" "1" "1" "4.0";
                          episode_csv_row "e2" "B" "2" "1" "4.0"] |}.

(** Two different shows with one title: every episode of show [A] has a
    null season, show [B] has the seasons 1 and 2. *)
Definition null_season_files : files :=
  {| show_csv := Some [show_csv_row "A" "Dup" "4.0" "10" "1";
                       show_csv_row "B" "Dup" "4.0" "20" "2"];
     episode_csv := Some [episode_csv_row "e1" "A" "" "1" "4.0";
                          episode_csv_row "e2" "A" "" "2" "4.0";
                          episode_csv_row "e3" "B" "1" "1" "4.0";
                          episode_csv_row "e4" "B" "2" "1" "4.0"] |}.

(** The tables that loading [null_season_files] commits. *)
Definition null_season_shows : Sql.table Shows.row :=
  {| Sql.tbl_schema := Shows.schema;
     Sql.rows := [show_row "A" "Dup" (Some (Py.Fin 4)) (Some 10%Z) (Some 1%Z);
                  show_row "B" "Dup" (Some (Py.Fin 4)) (Some 20%Z) (Some 2%Z)] |}.

Definition null_season_episodes : Sql.table Episodes.row :=
  {| Sql.tbl_schema := Episodes.schema;
     Sql.rows := [episode_row "e1" "A" None (Some 1%Z) (Some (Py.Fin 4));
                  episode_row "e2" "A" None (Some 2%Z) (Some (Py.Fin 4));
                  episode_row "e3" "B" (Some 1%Z) (Some 1%Z) (Some (Py.Fin 4));
                  episode_row "e4" "B" (Some 2%Z) (Some 1%Z) (Some (Py.Fin 4))] |}.

Definition null_season_db : db :=
  {| shows := Some null_season_shows; episodes := Some null_season_episodes |}.

(** An episode source whose second row has a season number that does not
    fit a 64-bit integer: the second INSERT raises [OverflowError] after the
    first episode row has been inserted. *)
Definition overflow_files : files :=
  {| show_csv := Some [show_csv_row "S1" "Alpha" "4.0" "1,000" "2"];
     episode_csv := Some [episode_csv_row "e1" "S1" "1" "1" "4.0";
                          episode_csv_row "e2" "S1" "9223372036854775808" "1" "4.0"] |}.

(** An episode source whose two rows both parse to the key
    [("S1", null, 1)]. *)
Definition null_key_files : files :=
  {| show_csv := Some [show_csv_row "S1" "Alpha" "4.0" "1,000" "2"];
     episode_csv := Some [episode_csv_row "e1" "S1" "" "1" "4.0";
                          episode_csv_row "e2" "S1" "" "1" "4.5"] |}.

(** An episode source where the key [("S1", 1, 1)] comes twice. *)
Definition repeated_key_files : files :=
  {| show_csv := Some [show_csv_row "S1" "Alpha" "4.0" "1,000" "2"];
     episode_csv := Some [episode_csv_row "e1" "S1" "1" "1" "4.0";
                          episode_csv_row "e2" "S1" "1" "2" "4.5";
                          episode_csv_row "e3" "S1" "1" "1" "5.0"] |}.

(** ** The lines of the reports *)

(** What report 2 prints for a given result set. *)
Definition report2_lines (results : list (string * nat)) : list line :=
  Line "2. Of the shows above, which have more than 1 season:"
  :: match results with
     | [] => [Line "  No shows with a low rating also have more than 1 season."]
     | _ => map (fun r => SeasonsLine (fst r) (snd r)) results
     end
  ++ [dashes].

(** The two counts of the lookup that follows Queries 3 and 4. *)
Definition lookup_counts (te : Sql.table Episodes.row) (show_code : string)
  : nat * nat :=
  (List.length (episodes_of show_code te),
   Sql.count_distinct (map Episodes.Season (episodes_of show_code te))).

(** What reports 3 and 4 print, given the heading, the line for an empty
    result, the Episode table and the row the query returned. *)
Definition show_section (heading none : string) (te : Sql.table Episodes.row)
    (result : option show_result) : list line :=
  Line heading
  :: match result with
     | Some (show_code, show_title, rating_count, rank) =>
         [ShowLine show_title; RatingCountLine rating_count; RankLine rank;
          TotalEpisodesLine (fst (lookup_counts te show_code));
          TotalSeasonsLine (snd (lookup_counts te show_code))]
     | None => [Line none]
     end
  ++ [dashes].

Definition report3_lines : Sql.table Episodes.row -> option show_result -> list line :=
  show_section
    "3. Show(s) with the highest rating count and lowest rank:"
    "  Could not determine the show with the highest rating count and lowest rank.".

Definition report4_lines : Sql.table Episodes.row -> option show_result -> list line :=
  show_section
    "4. Show(s) with the lowest rating count and highest rank:"
    "  Could not determine the show with the lowest rating count and highest rank.".

(** A computation that leaves the committed store as it finds it, whether
    it returns or raises. *)
Definition read_only {A} (m : M A) : Prop :=
  forall w, disk (snd (m w)) = disk w.

(** [WHERE RatingCount IS NOT NULL] *)
Definition has_rating_count (s : Shows.row) : bool :=
  match Shows.RatingCount s with
  | Some _ => true
  | None => false
  end.

(** The tables that loading [scenario_files] commits. *)
Definition scenario_shows : Sql.table Shows.row :=
  {| Sql.tbl_schema := Shows.schema;
     Sql.rows := [show_row "S1" "Alpha" (Some (Py.Fin 4)) (Some 1000%Z) (Some 2%Z);
                  show_row "S2" "Beta" (Some (Py.Fin 6)) (Some 500%Z) (Some 1%Z)] |}.

Definition scenario_episodes : Sql.table Episodes.row :=
  {| Sql.tbl_schema := Episodes.schema;
     Sql.rows := [episode_row "e1" "S1" (Some 1%Z) (Some 1%Z) (Some (Py.Fin 4));
                  episode_row "e2" "S1" (Some 2%Z) (Some 1%Z)
                    (Some (Py.Fin (9 # 2)))] |}.

Definition scenario_db : db :=
  {| shows := Some scenario_shows; episodes := Some scenario_episodes |}.

(** ** Sources that load *)

(** The stored row of a row of the show source: the conversions of
    [show_tuple], then the binding of the tuple. *)
Definition show_row_of (py_float : string -> option Py.float)
    (row : ShowCsv.row) : result Shows.row :=
  rbind (show_tuple py_float row) bind_show.

(** The store after a load: the given show rows, and of the given episode
    rows those that [INSERT OR IGNORE] keeps. *)
Definition loaded_db (show_rows : list Shows.row)
    (episode_rows : list Episodes.row) : db :=
  {| shows := Some {| Sql.tbl_schema := Shows.schema; Sql.rows := show_rows |};
     episodes := Some {| Sql.tbl_schema := Episodes.schema;
                         Sql.rows := first_occurrences [] episode_rows |} |}.

(** Both files are there, every row of both converts and fits the 64-bit
    integers, and no two show rows have the same code. *)
Definition loadable (py_float : string -> option Py.float) (fs : files)
    (show_rows : list Shows.row) (episode_rows : list Episodes.row) : Prop :=
  exists show_reader episode_reader,
    show_csv fs = Some show_reader
    /\ episode_csv fs = Some episode_reader
    /\ map_result (show_row_of py_float) show_reader = ok show_rows
    /\ NoDup (map ShowCsv.Code show_reader)
    /\ map_result (episode_row_of py_float) episode_reader = ok episode_rows.

Definition episodes_ingested_line : line :=
  Line "Ingested data into 'episodes' table (duplicates were ignored).".

(** The number [ingest_data] prints after the show load. *)
Definition show_count (fs : files) : nat :=
  match show_csv fs with
  | Some reader => List.length reader
  | None => 0
  end.

(** What a run of the script prints after the line of the schema
    initializer when the load raises [e]. *)
Definition failed_run_lines (py_float : string -> option Py.float) (fs : files)
    (e : exn) : list line :=
  load_lines py_float fs fresh_db (show_count fs) ++ handler_lines e.

(** A stored show row carries the fields of a source row: code and title
    as they are, the three numbers as their conversions give them. *)
Definition stores (py_float : string -> option Py.float) (row : ShowCsv.row)
    (r : Shows.row) : Prop :=
  Shows.Code r = ShowCsv.Code row
  /\ Shows.Title r = ShowCsv.Title row
  /\ rmap Sql.bind_optional_float (float_if_nonempty py_float (ShowCsv.Rating row))
     = ok (Shows.Rating r)
  /\ rating_count_cleaned (ShowCsv.Rating_Count row) = ok (Shows.RatingCount r)
  /\ int_if_nonempty (ShowCsv.Rank row) = ok (Shows.Rank r).

(** A field that is not empty and that its conversion rejects. *)
Definition bad_show_row (py_float : string -> option Py.float)
    (row : ShowCsv.row) : Prop :=
  (exists e, rating_count_cleaned (ShowCsv.Rating_Count row) = inl e)
  \/ (exists e, float_if_nonempty py_float (ShowCsv.Rating row) = inl e)
  \/ (exists e, int_if_nonempty (ShowCsv.Rank row) = inl e).

(** The exceptions a load can raise. *)
Definition load_exception (e : exn) : Prop :=
  e = FileNotFoundError "all-series-ep-average.csv"
  \/ e = FileNotFoundError "all-episode-ratings.csv"
  \/ e = ValueError
  \/ e = OverflowError
  \/ e = shows_code_violation.


(** Three low-rated shows stored in the order Bravo, Alpha, Charlie, each
    with the seasons 1 and 2. *)
Definition tied_titles_db : db :=
  {| shows :=
       Some {| Sql.tbl_schema := Shows.schema;
               Sql.rows := [rated_show "B" "Bravo" (Some (Py.Fin 4));
                            rated_show "A" "Alpha" (Some (Py.Fin 4));
                            rated_show "C" "Charlie" (Some (Py.Fin 4))] |};
     episodes :=
       Some {| Sql.tbl_schema := Episodes.schema;
               Sql.rows := [episode_row "b1" "B" (Some 1%Z) (Some 1%Z) None;
                            episode_row "b2" "B" (Some 2%Z) (Some 1%Z) None;
                            episode_row "a1" "A" (Some 1%Z) (Some 1%Z) None;
                            episode_row "a2" "A" (Some 2%Z) (Some 1%Z) None;
                            episode_row "c1" "C" (Some 1%Z) (Some 1%Z) None;
                            episode_row "c2" "C" (Some 2%Z) (Some 1%Z) None] |} |}.

(** A show source with a rank that is not a number. *)
Definition bad_rank_files : files :=
  {| show_csv := Some [show_csv_row "S1" "Alpha" "4.0" "1,000" "2";
                       show_csv_row "S2" "Beta" "6.0" "500" "first"];
     episode_csv := Some [] |}.

(** An episode row with a field that raises in its conversion: a Season or
    Episode that [isdigit] accepts and [int] rejects, or a non-empty Rating
    that is not a float. *)
Definition bad_episode_row (py_float : string -> option Py.float)
    (row : EpisodeCsv.row) : Prop :=
  (exists e, int_if_isdigit (EpisodeCsv.Season row) = inl e)
  \/ (exists e, int_if_isdigit (EpisodeCsv.Episode row) = inl e)
  \/ (exists e, float_if_nonempty py_float (EpisodeCsv.Rating row) = inl e).

(** An episode source with a rating that is not a number. *)
Definition bad_rating_files : files :=
  {| show_csv := Some [show_csv_row "S1" "Alpha" "4.0" "1,000" "2"];
     episode_csv := Some [episode_csv_row "e1" "S1" "1" "1" "4.0";
                          episode_csv_row "e2" "S1" "1" "2" "n/a"] |}.

(** A character of the ASCII block. *)
Definition is_ascii (c : ascii) : bool := Py.code c <? 128.

(** What a run prints on two sources without rows. *)
Definition empty_run_lines : list line :=
  [created_line; IngestedLine 0; episodes_ingested_line; reports_banner;
   Line "1. Shows with a rating less than or equal to 5:";
   Line "  No shows found with a rating of 5 or less.";
   dashes;
   Line "2. Of the shows above, which have more than 1 season:";
   Line "  No shows with a low rating also have more than 1 season.";
   dashes;
   Line "3. Show(s) with the highest rating count and lowest rank:";
   Line "  Could not determine the show with the highest rating count and lowest rank.";
   dashes;
   Line "4. Show(s) with the lowest rating count and highest rank:";
   Line "  Could not determine the show with the lowest rating count and highest rank.";
   dashes].

(** * Schema initializer *)

Lemma create_database_and_tables_run (w : world) :
  create_database_and_tables w =
    (ok tt, {| disk := fresh_db; pending := None;
               stdout := stdout w ++ [created_line] |}).
Proof. destruct w as [[s e] p out]. reflexivity. Qed.


(** * Field conversions *)

Lemma ascii_digit_facts (c : ascii) :
  Py.is_ascii_digit c = true ->
  Py.int_isspace c = false /\ Ascii.eqb c "_" = false /\ Ascii.eqb c "," = false
  /\ Ascii.eqb c "+" = false /\ Ascii.eqb c "-" = false
  /\ Py.unicode_isdigit c = true.
Proof.
  destruct c as [[] [] [] [] [] [] [] []]; cbv; intros H;
    try discriminate H; repeat split.
Qed.

Lemma scan_digits_all_digits (ds : list ascii) :
  Forall (fun c => Py.is_ascii_digit c = true) ds ->
  forall n acc,
    Py.scan_digits false n acc ds =
      Some (fold_left (fun a c => (10 * a + Py.digit_value c)%Z) ds acc,
            n + List.length ds, []).
Proof.
  induction 1 as [|c ds Hc _ IH]; intros n acc; simpl.
  - now rewrite Nat.add_0_r.
  - rewrite Hc, IH. do 3 f_equal. lia.
Qed.

(** [int] on a non-empty string of at most 4300 ASCII digits. *)
Lemma int_of_digits (s : string) :
  list_ascii_of_string s <> [] ->
  Forall (fun c => Py.is_ascii_digit c = true) (list_ascii_of_string s) ->
  List.length (list_ascii_of_string s) <= Py.max_str_digits ->
  Py.int s = ok (decimal_value (list_ascii_of_string s)).
Proof.
  unfold Py.int, decimal_value.
  destruct (list_ascii_of_string s) as [|c cs]; [congruence|].
  intros _ Hall Hlen.
  pose proof (Forall_inv Hall) as Hc.
  destruct (ascii_digit_facts c Hc) as (Hsp & Hus & _ & Hplus & Hminus & _).
  cbn [Py.skip_space Py.scan_sign Py.starts_with_underscore].
  rewrite Hsp. cbn [Py.scan_sign Py.starts_with_underscore].
  rewrite Hplus, Hminus. cbn [Py.starts_with_underscore]. rewrite Hus.
  rewrite (scan_digits_all_digits Hall). cbn [List.length Nat.add Py.skip_space].
  cbn [List.length] in Hlen.
  destruct (Nat.ltb_spec Py.max_str_digits (S (List.length cs))); [lia|].
  f_equal. lia.
Qed.

Lemma chars_replace_commas (x : string) :
  list_ascii_of_string (Py.replace_with_empty "," x) = without_commas x.
Proof.
  unfold without_commas, is_comma.
  induction x as [|c x IH]; simpl; [reflexivity|].
  destruct (Ascii.eqb c ","); simpl; now rewrite IH.
Qed.

Lemma without_commas_no_comma (x : string) :
  Forall (fun c => c <> ","%char) (without_commas x).
Proof.
  apply Forall_forall. intros c Hin.
  apply filter_In in Hin. destruct Hin as [_ Hc].
  unfold is_comma in Hc. intros ->. now rewrite Ascii.eqb_refl in Hc.
Qed.

Lemma without_commas_digits (x : string) :
  Forall (fun c => Py.is_ascii_digit c = true \/ c = ","%char)
    (list_ascii_of_string x) ->
  Forall (fun c => Py.is_ascii_digit c = true) (without_commas x).
Proof.
  intros H. apply Forall_forall. intros c Hin.
  apply filter_In in Hin. destruct Hin as [Hin Hc].
  rewrite Forall_forall in H. destruct (H c Hin) as [Hd | ->]; [exact Hd|].
  discriminate Hc.
Qed.

(** C4. The [Rating Count] field of a show row: an empty field is stored as
    null; a non-empty field has all its commas removed and the remainder is
    converted with [int], so ["12,345"] gives the integer 12345, and every
    field made of decimal digits and commas (at least one digit, at most
    4300) gives the integer its digits denote. *)
Theorem rating_count_parse :
  rating_count_cleaned "" = ok None
  /\ rating_count_cleaned "12,345" = ok (Some 12345%Z)
  /\ (forall x, x <> ""%string ->
        rating_count_cleaned x = rmap Some (Py.int (Py.replace_with_empty "," x))
        /\ list_ascii_of_string (Py.replace_with_empty "," x) = without_commas x
        /\ Forall (fun c => c <> ","%char) (without_commas x))
  /\ (forall x,
        Forall (fun c => Py.is_ascii_digit c = true \/ c = ","%char)
          (list_ascii_of_string x) ->
        without_commas x <> [] ->
        List.length (without_commas x) <= Py.max_str_digits ->
        rating_count_cleaned x = ok (Some (decimal_value (without_commas x)))).
Proof.
  split; [reflexivity|]. split; [reflexivity|]. split.
  - intros x Hx. split; [|split].
    + unfold rating_count_cleaned. destruct x; [congruence | reflexivity].
    + apply chars_replace_commas.
    + apply without_commas_no_comma.
  - intros x Hchars Hne Hlen.
    unfold rating_count_cleaned.
    destruct x as [|c x]; [now elim Hne|].
    cbn [Py.truthy].
    rewrite int_of_digits; rewrite ?chars_replace_commas; auto.
    now apply without_commas_digits.
Qed.

Lemma rating_count_parse_witness :
  rating_count_cleaned "1,000,000" = ok (Some 1000000%Z).
Proof.
  apply (proj2 (proj2 (proj2 rating_count_parse)) "1,000,000"%string).
  - repeat constructor; (left; reflexivity) || (right; reflexivity).
  - discriminate.
  - apply Nat.leb_le. reflexivity.
Defined.

(** Every string of ASCII digits (non-empty, at most 4300 of them) parses to
    the integer it denotes. *)
Lemma int_if_isdigit_decimal (x : string) :
  list_ascii_of_string x <> [] ->
  Forall (fun c => Py.is_ascii_digit c = true) (list_ascii_of_string x) ->
  List.length (list_ascii_of_string x) <= Py.max_str_digits ->
  int_if_isdigit x = ok (Some (decimal_value (list_ascii_of_string x))).
Proof.
  intros Hne Hall Hlen. unfold int_if_isdigit.
  rewrite int_of_digits by assumption.
  replace (Py.isdigit x) with true; [reflexivity|].
  unfold Py.isdigit. destruct (list_ascii_of_string x) as [|c cs]; [congruence|].
  symmetry. apply forallb_forall. intros d Hd.
  rewrite Forall_forall in Hall. now apply ascii_digit_facts, Hall.
Qed.

(** Every string that [isdigit] rejects, the empty string included, is
    coerced to null without calling [int]. *)
Lemma int_if_isdigit_null (x : string) :
  Py.isdigit x = false -> int_if_isdigit x = ok None.
Proof. unfold int_if_isdigit. now intros ->. Qed.

Example season_abc_is_null :
  int_if_isdigit "abc" = ok None /\ int_if_isdigit "" = ok None
  /\ int_if_isdigit "-1" = ok None /\ int_if_isdigit "12" = ok (Some 12%Z).
Proof. repeat split. Qed.

(** C3, at the input where the code departs from it: the one-character
    string U+00B2 (superscript two) passes [isdigit], so the field is handed
    to [int], which raises [ValueError] instead of yielding null; a load
    whose episode source has that season is aborted by the exception. *)
Theorem season_superscript_two_raises :
  Py.isdigit (String "178" "") = true
  /\ Py.int (String "178" "") = raise ValueError
  /\ int_if_isdigit (String "178" "") = raise ValueError
  /\ main example_float superscript_season_files blank_world =
       {| disk := fresh_db; pending := None;
          stdout := [created_line; IngestedLine 1;
                     UnexpectedErrorLine ValueError] |}.
Proof. repeat split. Qed.

(** * The sorter *)

Section Sorter.
Variable A : Type.
Variable before : A -> A -> bool.

Lemma sorter_insert_perm (x : A) (l : list A) :
  Permutation (Sql.sorter_insert before x l) (x :: l).
Proof.
  induction l as [|y l IH]; simpl; [reflexivity|].
  destruct (before x y); [reflexivity|].
  rewrite IH. apply perm_swap.
Qed.

Lemma order_by_perm (l : list A) : Permutation (Sql.order_by before l) l.
Proof.
  induction l as [|x l IH]; simpl; [reflexivity|].
  rewrite sorter_insert_perm. now constructor.
Qed.

Lemma order_by_In (l : list A) (x : A) : In x (Sql.order_by before l) <-> In x l.
Proof.
  split; apply Permutation_in;
    [apply order_by_perm | symmetry; apply order_by_perm].
Qed.

Hypothesis before_total : forall a b, before a b = true \/ before b a = true.

Lemma sorter_insert_sorted (x : A) (l : list A) :
  Sorted (fun a b => before a b = true) l ->
  Sorted (fun a b => before a b = true) (Sql.sorter_insert before x l).
Proof.
  induction 1 as [|y l Hl IH Hhd]; simpl.
  - repeat constructor.
  - destruct (before x y) eqn:Hxy.
    + repeat constructor; assumption.
    + constructor; [exact IH|].
      destruct l as [|z l]; simpl.
      * constructor. destruct (before_total x y); congruence.
      * destruct (before x z); constructor.
        -- destruct (before_total x y); congruence.
        -- now inversion Hhd.
Qed.

Lemma order_by_sorted (l : list A) :
  Sorted (fun a b => before a b = true) (Sql.order_by before l).
Proof.
  induction l as [|x l IH]; simpl; [constructor|].
  now apply sorter_insert_sorted.
Qed.

Hypothesis before_trans :
  forall a b c, before a b = true -> before b c = true -> before a c = true.

Lemma order_by_strongly_sorted (l : list A) :
  StronglySorted (fun a b => before a b = true) (Sql.order_by before l).
Proof.
  apply Sorted_StronglySorted; [|apply order_by_sorted].
  intros a b c. apply before_trans.
Qed.
End Sorter.

Lemma real_leb_total (a b : Py.real) :
  Sql.real_leb a b = true \/ Sql.real_leb b a = true.
Proof.
  destruct a as [|x|], b as [|y|]; simpl; auto.
  rewrite !Qle_bool_iff. destruct (Qlt_le_dec x y) as [H|H]; [left|right]; auto.
  now apply Qlt_le_weak.
Qed.

Lemma real_leb_trans (a b c : Py.real) :
  Sql.real_leb a b = true -> Sql.real_leb b c = true -> Sql.real_leb a c = true.
Proof.
  destruct a as [|x|], b as [|y|], c as [|z|]; simpl; auto; try discriminate.
  rewrite !Qle_bool_iff. apply Qle_trans.
Qed.

Lemma rating_desc_total (a b : Shows.row) :
  rating_desc a b = true \/ rating_desc b a = true.
Proof.
  unfold rating_desc.
  destruct (Shows.Rating a), (Shows.Rating b); simpl; auto using real_leb_total.
Qed.

Lemma rating_desc_trans (a b c : Shows.row) :
  rating_desc a b = true -> rating_desc b c = true -> rating_desc a c = true.
Proof.
  unfold rating_desc.
  destruct (Shows.Rating a), (Shows.Rating b), (Shows.Rating c); simpl; auto;
    try discriminate.
  intros H1 H2. eapply real_leb_trans; eassumption.
Qed.

(** * Reporter *)

Lemma print_each_run (A : Type) (fmt : A -> line) (results : list A) (w : world) :
  print_each fmt results w =
    (ok tt, {| disk := disk w; pending := pending w;
               stdout := stdout w ++ map fmt results |}).
Proof.
  revert w. induction results as [|r rs IH]; intros w; simpl.
  - unfold ret. rewrite app_nil_r. now destruct w.
  - unfold bind, print at 1. rewrite IH. simpl.
    now rewrite <- app_assoc.
Qed.

Local Arguments print_each : simpl never.

Lemma report1_run (w : world) (results : list (string * option Py.real)) :
  query1 (view w) = ok results ->
  report1 w =
    (ok tt, {| disk := disk w; pending := pending w;
               stdout := stdout w ++ report1_lines results |}).
Proof.
  intros Hq. unfold report1, bind, fetch, print at 1. simpl.
  unfold view in *. simpl. rewrite Hq. unfold report1_lines.
  destruct results as [|r rs].
  - unfold print, ok. simpl. now rewrite <- !app_assoc.
  - unfold ok at 1. cbv beta iota.
    rewrite print_each_run. unfold print, ok. simpl.
    rewrite <- !app_assoc. reflexivity.
Qed.

Lemma StronglySorted_map (A B : Type) (R : A -> A -> Prop) (R' : B -> B -> Prop)
    (P : A -> Prop) (f : A -> B) (l : list A) :
  (forall a b, P a -> P b -> R a b -> R' (f a) (f b)) ->
  Forall P l -> StronglySorted R l -> StronglySorted R' (map f l).
Proof.
  intros Hf HP HS. induction HS as [|a l HS IH Hall]; simpl; constructor.
  - apply IH. now inversion HP.
  - inversion HP as [|? ? Pa Pl]; subst.
    rewrite Forall_forall in *. intros b Hb.
    apply in_map_iff in Hb. destruct Hb as (b0 & <- & Hb0). auto.
Qed.

Lemma low_rated_iff (s : Shows.row) :
  low_rated s = true <->
  exists x, Shows.Rating s = Some x /\ Sql.real_leb x (Py.Fin 5) = true.
Proof.
  unfold low_rated. destruct (Shows.Rating s) as [x|].
  - split; [intros H; now exists x | intros (y & [= <-] & H); exact H].
  - split; [discriminate | intros (y & [=] & _)].
Qed.

(** C5. Query 1 returns exactly the shows whose rating is non-null and at
    most 5.0, each once, sorted by rating from highest to lowest; on a Show
    table with the ratings 3.0, 5.0, 5.5 and null it returns the show rated
    5.0 and then the show rated 3.0, and nothing else; and when the result
    set is empty the report prints its "No shows found" line between the
    heading and the dashes. *)
Theorem query1_low_rated_descending :
  (forall d t, shows d = Some t ->
     exists results,
       query1 d = ok results
       /\ Permutation results
            (map (fun s => (Shows.Title s, Shows.Rating s))
               (filter low_rated (Sql.rows t)))
       /\ (forall title rating,
             In (title, rating) results <->
             exists s x, In s (Sql.rows t) /\ Shows.Title s = title
                         /\ Shows.Rating s = Some x /\ rating = Some x
                         /\ Sql.real_leb x (Py.Fin 5) = true)
       /\ StronglySorted rating_not_below results)
  /\ query1 four_ratings_db =
       ok [("Five"%string, Some (Py.Fin 5)); ("Three"%string, Some (Py.Fin 3))]
  /\ (forall w, query1 (view w) = ok [] ->
        report1 w =
          (ok tt, {| disk := disk w; pending := pending w;
                     stdout := stdout w ++
                       [Line "1. Shows with a rating less than or equal to 5:";
                        Line "  No shows found with a rating of 5 or less.";
                        dashes] |})).
Proof.
  split; [|split].
  - intros d t Ht. unfold query1. rewrite Ht. eexists. split; [reflexivity|].
    split; [|split].
    + apply Permutation_map, order_by_perm.
    + intros title rating. rewrite in_map_iff. split.
      * intros (s & [= <- <-] & Hin). apply order_by_In, filter_In in Hin.
        destruct Hin as [Hin Hlow]. apply low_rated_iff in Hlow.
        destruct Hlow as (x & Hx & Hle). exists s, x. auto.
      * intros (s & x & Hin & <- & Hx & -> & Hle). exists s. split.
        -- now rewrite Hx.
        -- apply order_by_In, filter_In. split; [exact Hin|].
           apply low_rated_iff. now exists x.
    + apply StronglySorted_map
        with (R := fun a b => rating_desc a b = true)
             (P := fun s => low_rated s = true).
      * intros a b Ha Hb Hab. apply low_rated_iff in Ha, Hb.
        destruct Ha as (x & Hx & _), Hb as (y & Hy & _).
        exists x, y. simpl. repeat split; try assumption.
        unfold rating_desc in Hab. now rewrite Hx, Hy in Hab.
      * apply Forall_forall. intros s Hs.
        now apply order_by_In, filter_In in Hs.
      * apply order_by_strongly_sorted;
          [apply rating_desc_total | apply rating_desc_trans].
  - reflexivity.
  - intros w Hq. now rewrite (report1_run w Hq).
Qed.

Lemma query1_low_rated_descending_witness :
  exists results,
    query1 four_ratings_db = ok results
    /\ StronglySorted rating_not_below results.
Proof.
  destruct (proj1 query1_low_rated_descending four_ratings_db _ eq_refl)
    as (results & Hq & _ & _ & Hsorted).
  now exists results.
Defined.





(** C6, at the input where the code departs from it: shows [A] and [B] are
    different shows with the same title, rated 4.0, and each has one season
    (the per-show lookup gives one distinct season for each), so no show has
    more than one season; Query 2 groups by title, merges the two shows, and
    lists the title with two seasons. *)
Theorem query2_merges_same_title :
  let w := main example_float same_title_files blank_world in
  episode_counts "A" (disk w) = ok (1, 1)
  /\ episode_counts "B" (disk w) = ok (1, 1)
  /\ query2 (disk w) = ok [("Dup"%string, 2)]
  /\ In (SeasonsLine "Dup" 2) (stdout w).
Proof.
  vm_compute. repeat split. auto 20.
Qed.

(** [COUNT(DISTINCT x)] is the size of the set of the non-NULL values. *)
Lemma count_distinct_spec (xs : list (option Z)) :
  exists l, Sql.count_distinct xs = List.length l /\ NoDup l
            /\ forall z, In z l <-> In (Some z) xs.
Proof.
  unfold Sql.count_distinct. eexists. split; [reflexivity|].
  split; [apply NoDup_nodup|].
  intros z. rewrite nodup_In, in_flat_map. split.
  - intros ([y|] & Hin & Hz); simpl in Hz; [|contradiction].
    destruct Hz as [->|[]]. exact Hin.
  - intros Hin. exists (Some z). split; [exact Hin | now left].
Qed.

Lemma count_distinct_null (xs : list (option Z)) :
  Sql.count_distinct (None :: xs) = Sql.count_distinct xs.
Proof. reflexivity. Qed.

Lemma in_low_rated_join (ss : list Shows.row) (es : list Episodes.row)
    (s : Shows.row) (e : Episodes.row) :
  In (s, e) (low_rated_join ss es) <->
  In s ss /\ low_rated s = true /\ In e es
  /\ Episodes.parent_code e = Shows.Code s.
Proof.
  unfold low_rated_join. rewrite in_flat_map. split.
  - intros (s0 & Hs0 & Hin). apply filter_In in Hs0. destruct Hs0 as [Hs0 Hlow].
    apply in_map_iff in Hin. destruct Hin as (e0 & [= <- <-] & He0).
    apply filter_In in He0. destruct He0 as [He0 Heq].
    apply String.eqb_eq in Heq. auto.
  - intros (Hs & Hlow & He & Heq). exists s. split.
    + apply filter_In. auto.
    + apply in_map, filter_In. split; [exact He|].
      apply String.eqb_eq. auto.
Qed.

Lemma in_episodes_of (code : string) (te : Sql.table Episodes.row)
    (e : Episodes.row) :
  In e (episodes_of code te) <->
  In e (Sql.rows te) /\ Episodes.parent_code e = code.
Proof.
  unfold episodes_of. rewrite filter_In. now rewrite String.eqb_eq.
Qed.

(** The groups of Query 2: the count of a title is the number of distinct
    non-null seasons among the episodes of the low-rated shows so titled. *)
Lemma in_group_by_title (ss : list Shows.row) (te : Sql.table Episodes.row)
    (title : string) (n : nat) :
  In (title, n) (group_by_title (low_rated_join ss (Sql.rows te))) ->
  exists seasons,
    n = List.length seasons /\ NoDup seasons
    /\ forall z, In z seasons <->
         exists s e, In s ss /\ low_rated s = true /\ Shows.Title s = title
                     /\ In e (episodes_of (Shows.Code s) te)
                     /\ Episodes.Season e = Some z.
Proof.
  unfold group_by_title. rewrite in_map_iff.
  intros (title0 & [= -> <-] & _).
  destruct (count_distinct_spec
              (map (fun p => Episodes.Season (snd p))
                 (filter (fun p => String.eqb (Shows.Title (fst p)) title)
                    (low_rated_join ss (Sql.rows te)))))
    as (l & Hlen & Hnodup & Hl).
  exists l. split; [exact Hlen|]. split; [exact Hnodup|].
  intros z. rewrite Hl, in_map_iff. split.
  - intros ([s e] & Hz & Hin). simpl in Hz.
    apply filter_In in Hin. destruct Hin as [Hin Ht]. simpl in Ht.
    apply String.eqb_eq in Ht. apply in_low_rated_join in Hin.
    destruct Hin as (Hs & Hlow & He & Hcode).
    exists s, e. rewrite in_episodes_of. auto 10.
  - intros (s & e & Hs & Hlow & Ht & He & Hz).
    apply in_episodes_of in He. destruct He as [He Hcode].
    exists (s, e). split; [exact Hz|].
    apply filter_In. split.
    + apply in_low_rated_join. auto.
    + simpl. now apply String.eqb_eq.
Qed.

(** C10, amended. The season counts of Query 2 and of the per-show lookups
    of Queries 3 and 4 count the distinct non-null Season values only: for a
    show code the lookup returns the number of all its episode rows, null
    seasons included, and the number of distinct non-null seasons among
    them; each row of Query 2 carries the number of distinct non-null
    seasons among the episodes of the low-rated shows with that title, and
    that number exceeds one; so a show all of whose episodes have a null
    Season, and whose title no other show shares, is not listed by Query 2,
    however many episode rows it has. *)
Theorem null_seasons_not_counted (d : db)
    (ts : Sql.table Shows.row) (te : Sql.table Episodes.row)
    (Hshows : shows d = Some ts) (Hepisodes : episodes d = Some te) :
  (forall code,
     exists seasons,
       episode_counts code d =
         ok (List.length (episodes_of code te), List.length seasons)
       /\ NoDup seasons
       /\ forall z, In z seasons <->
            exists e, In e (episodes_of code te) /\ Episodes.Season e = Some z)
  /\ exists results,
       query2 d = ok results
       /\ (forall title n, In (title, n) results ->
             1 < n
             /\ exists seasons,
                  n = List.length seasons /\ NoDup seasons
                  /\ forall z, In z seasons <->
                       exists s e, In s (Sql.rows ts) /\ low_rated s = true
                                   /\ Shows.Title s = title
                                   /\ In e (episodes_of (Shows.Code s) te)
                                   /\ Episodes.Season e = Some z)
       /\ (forall s,
             In s (Sql.rows ts) ->
             (forall e, In e (episodes_of (Shows.Code s) te) ->
                        Episodes.Season e = None) ->
             (forall s', In s' (Sql.rows ts) ->
                         Shows.Title s' = Shows.Title s ->
                         Shows.Code s' = Shows.Code s) ->
             forall n, ~ In (Shows.Title s, n) results).
Proof.
  split.
  - intros code. unfold episode_counts. rewrite Hepisodes.
    destruct (count_distinct_spec (map Episodes.Season (episodes_of code te)))
      as (l & Hlen & Hnodup & Hl).
    exists l. split; [|split].
    + unfold episodes_of in *. now rewrite Hlen.
    + exact Hnodup.
    + intros z. rewrite Hl, in_map_iff.
      split; intros (e & H1 & H2); exists e; auto.
  - unfold query2. rewrite Hshows, Hepisodes. eexists. split; [reflexivity|].
    assert (forall title n,
              In (title, n)
                (Sql.order_by season_count_desc
                   (filter (fun g => 1 <? snd g)
                      (group_by_title
                         (low_rated_join (Sql.rows ts) (Sql.rows te))))) ->
              1 < n /\ In (title, n)
                         (group_by_title
                            (low_rated_join (Sql.rows ts) (Sql.rows te))))
      as Hin.
    { intros title n H. apply order_by_In, filter_In in H.
      destruct H as [H Hn]. simpl in Hn. apply Nat.ltb_lt in Hn. auto. }
    split.
    + intros title n H. apply Hin in H. destruct H as [Hn H].
      split; [exact Hn|]. now apply in_group_by_title.
    + intros s Hs Hnull Huniq n H. apply Hin in H. destruct H as [Hn H].
      apply in_group_by_title in H. destruct H as (l & -> & _ & Hl).
      destruct l as [|z l]; [simpl in Hn; lia|].
      destruct (proj1 (Hl z) (or_introl eq_refl))
        as (s' & e & Hs' & _ & Ht & He & Hz).
      rewrite (Huniq s' Hs' Ht) in He. rewrite (Hnull e He) in Hz.
      discriminate Hz.
Qed.

Example null_season_files_loaded :
  disk (main example_float null_season_files blank_world) = null_season_db.
Proof. reflexivity. Qed.

(** C10 as stated fails where two shows share a title: every episode of show
    [A] (rated 4.0, two episode rows) has a null Season, show [B] has the
    same title and two seasons, and Query 2 lists the title of [A]. *)
Lemma null_season_show_listed_under_shared_title :
  let a := show_row "A" "Dup" (Some (Py.Fin 4)) (Some 10%Z) (Some 1%Z) in
  disk (main example_float null_season_files blank_world) = null_season_db
  /\ In a (Sql.rows null_season_shows)
  /\ low_rated a = true
  /\ List.length (episodes_of (Shows.Code a) null_season_episodes) = 2
  /\ (forall e, In e (episodes_of (Shows.Code a) null_season_episodes) ->
                Episodes.Season e = None)
  /\ query2 null_season_db = ok [(Shows.Title a, 2)]
  /\ ~ (forall n, ~ In (Shows.Title a, n)
                    match query2 null_season_db with
                    | inr results => results
                    | inl _ => []
                    end).
Proof.
  intros a.
  split; [reflexivity|]. split; [left; reflexivity|].
  split; [reflexivity|]. split; [reflexivity|].
  split; [|split].
  - intros e [<- | [<- | []]]; reflexivity.
  - reflexivity.
  - intros H. apply (H 2). left. reflexivity.
Qed.

Lemma null_seasons_not_counted_witness :
  exists seasons : list Z,
    episode_counts "A" null_season_db = ok (2, List.length seasons)
    /\ forall z, ~ In z seasons.
Proof.
  destruct (proj1 (@null_seasons_not_counted null_season_db
                     null_season_shows null_season_episodes eq_refl eq_refl)
              "A"%string)
    as (seasons & Hcounts & _ & Hseasons).
  exists seasons. split; [exact Hcounts|].
  intros z Hz. apply Hseasons in Hz. destruct Hz as (e & He & Hz).
  destruct He as [<- | [<- | []]]; discriminate Hz.
Defined.

(** * Loader *)

Lemma run_each_fold (P : Type) (step : P -> db -> result db) (params : list P) :
  forall w v, pending w = Some v ->
    match fold_steps step params v with
    | inr d' => run_each step params w = (ok tt, with_pending (Some d') w)
    | inl e => exists d'', run_each step params w = (inl e, with_pending (Some d'') w)
    end.
Proof.
  induction params as [|p ps IH]; intros w v Hv; simpl.
  - unfold ret, with_pending. rewrite <- Hv. now destruct w.
  - unfold bind, execute_step, view. rewrite Hv.
    destruct (step p v) as [e|d1]; simpl.
    + exists v. unfold with_pending. rewrite <- Hv. now destruct w.
    + specialize (IH (with_pending (Some d1) w) d1 eq_refl).
      destruct (fold_steps step ps d1) as [e|d'].
      * destruct IH as (d'' & ->). exists d''; reflexivity.
      * rewrite IH; reflexivity.
Qed.

Lemma executemany_fold (P : Type) (prepare : db -> result unit)
    (step : P -> db -> result db) (params : list P) (w : world) :
  match prepare (view w) with
  | inl e => executemany prepare step params w = (inl e, w)
  | inr _ =>
      match fold_steps step params (view w) with
      | inr d' => executemany prepare step params w = (ok tt, with_pending (Some d') w)
      | inl e =>
          exists d'', executemany prepare step params w
                      = (inl e, with_pending (Some d'') w)
      end
  end.
Proof.
  unfold executemany, bind, begin.
  destruct (prepare (view w)) as [e|[]]; [reflexivity|].
  unfold ok at 1. cbv beta iota.
  pose proof (run_each_fold step params (with_pending (Some (view w)) w) eq_refl)
    as H.
  destruct (fold_steps step params (view w)) as [e|d'].
  - destruct H as (d'' & ->). exists d''; reflexivity.
  - rewrite H; reflexivity.
Qed.

(** The two ways [ingest_data] stops on an exception: before anything was
    printed, and after the line of the show load. *)
Ltac stopped_in_show_load w :=
  exists (with_pending None w), 0; rewrite app_nil_r;
  repeat split; discriminate.

Ltac stopped_in_episode_load :=
  do 2 eexists; repeat split; discriminate.

(** [ingest_data] commits what [load] computes, through its single
    [commit]; when it raises, the committed content is what it was. *)
Lemma ingest_data_load (py_float : string -> option Py.float) (fs : files)
    (w : world) :
  exists w' n,
    ingest_data py_float fs w = (rmap (fun _ => tt) (load py_float fs (disk w)), w')
    /\ disk w' = match load py_float fs (disk w) with
                 | inr d' => d'
                 | inl _ => disk w
                 end
    /\ stdout w' = stdout w ++ load_lines py_float fs (disk w) n
    /\ (forall d', load py_float fs (disk w) = inr d' -> pending w' = None).
Proof.
  unfold ingest_data, load, load_lines, load_shows, load_episodes.
  unfold bind at 1. unfold connect.
  unfold bind at 1. unfold read_csv, opened.
  destruct (show_csv fs) as [srows|]; simpl; [|stopped_in_show_load w].
  unfold bind at 1. unfold lift at 1.
  destruct (map_result (show_tuple py_float) srows) as [e|stuples]; simpl;
    [stopped_in_show_load w|].
  unfold bind at 1.
  pose proof (executemany_fold shows_exists insert_into_shows stuples
                (with_pending None w)) as H1.
  change (view (with_pending None w)) with (disk w) in H1.
  destruct (shows_exists (disk w)) as [e|[]]; simpl;
    [rewrite H1; stopped_in_show_load w|].
  destruct (fold_steps insert_into_shows stuples (disk w)) as [e|d1]; simpl.
  { destruct H1 as (d'' & ->). eexists. exists 0. rewrite app_nil_r.
    repeat split; discriminate. }
  rewrite H1. clear H1.
  unfold bind at 1. unfold print at 1. simpl.
  unfold bind at 1.
  destruct (episode_csv fs) as [erows|]; simpl; [|stopped_in_episode_load].
  unfold bind at 1. unfold lift at 1.
  destruct (map_result (episode_tuple py_float) erows) as [e|etuples]; simpl;
    [stopped_in_episode_load|].
  unfold bind at 1.
  match goal with
  | |- context [executemany _ _ _ ?w1] =>
      pose proof (executemany_fold episodes_exists insert_or_ignore_into_episodes
                    etuples w1) as H2;
      change (view w1) with d1 in H2
  end.
  destruct (episodes_exists d1) as [e|[]]; simpl;
    [rewrite H2; stopped_in_episode_load|].
  destruct (fold_steps insert_or_ignore_into_episodes etuples d1) as [e|d2]; simpl.
  { destruct H2 as (d'' & ->). stopped_in_episode_load. }
  rewrite H2. clear H2.
  do 2 eexists. split; [reflexivity|]. simpl. split; [reflexivity|].
  split; [|reflexivity]. rewrite <- app_assoc. reflexivity.
Qed.

(** The run of the main block when the load raises: the tables are as the
    schema initializer left them, and after the lines of the two first
    phases only the handler prints. *)
Lemma main_when_load_fails (py_float : string -> option Py.float) (fs : files)
    (w : world) (e : exn) :
  load py_float fs fresh_db = inl e ->
  exists n,
    main py_float fs w =
      {| disk := fresh_db; pending := None;
         stdout := stdout w ++ created_line
                   :: load_lines py_float fs fresh_db n ++ handler_lines e |}.
Proof.
  intros Hload. unfold main, pipeline. unfold bind at 1.
  rewrite create_database_and_tables_run. unfold ok at 1. cbv beta iota.
  unfold bind at 1.
  match goal with
  | |- context [ingest_data _ _ ?w1] =>
      destruct (ingest_data_load py_float fs w1)
        as (w' & n & -> & Hdisk & Hout & _)
  end.
  simpl in Hdisk, Hout. rewrite Hload in *. simpl.
  exists n. unfold handler_lines.
  destruct w' as [dk pd out]. simpl in Hdisk, Hout. subst dk out.
  rewrite Hload. simpl.
  destruct (is_FileNotFoundError e); unfold bind, print, with_pending; simpl;
    rewrite <- !app_assoc; reflexivity.
Qed.

(** Whatever makes [ingest_data] raise, the committed content is left as it
    was. *)
Lemma ingest_data_failure_keeps_disk (py_float : string -> option Py.float)
    (fs : files) (w w' : world) (e : exn) :
  ingest_data py_float fs w = (inl e, w') -> disk w' = disk w.
Proof.
  destruct (ingest_data_load py_float fs w) as (w'' & n & -> & Hdisk & _).
  destruct (load py_float fs (disk w)) as [e'|d']; simpl; [|discriminate].
  intros [= _ <-]. exact Hdisk.
Qed.

(** C8 as stated fails: no failure of the load leaves partial progress in
    the committed store.  Starting from the freshly initialized tables, a
    load that raises leaves the committed Episode table empty. *)
Lemma no_partial_progress_after_failed_load :
  ~ exists py_float fs w,
      disk w = fresh_db /\ leaves_partial_progress py_float fs w.
Proof.
  intros (py_float & fs & w & Hfresh
          & e & w' & d1 & reader & ts & te & Hfail & _ & _ & _ & _ & Hte & Hrows).
  apply ingest_data_failure_keeps_disk in Hfail.
  rewrite Hfail, Hfresh in Hte. injection Hte as <-. now apply Hrows.
Qed.

(** C8, amended. The two table loads run in one transaction that is
    committed once, after the episode load: when the load raises after the
    schema was initialized, wherever it raises, nothing of it is committed;
    the committed store is as the schema initializer left it, both tables
    empty, also at the end of the run. *)
Theorem failed_load_commits_nothing (py_float : string -> option Py.float)
    (fs : files) (w w1 w' : world) (e : exn)
    (Hinit : create_database_and_tables w = (ok tt, w1))
    (Hfail : ingest_data py_float fs w1 = (inl e, w')) :
  disk w' = disk w1
  /\ disk w' = fresh_db
  /\ disk (main py_float fs w) = fresh_db.
Proof.
  rewrite create_database_and_tables_run in Hinit. injection Hinit as <-.
  pose proof (ingest_data_failure_keeps_disk _ _ _ Hfail) as Hdisk.
  split; [exact Hdisk|]. split; [exact Hdisk|].
  destruct (ingest_data_load py_float fs
              {| disk := fresh_db; pending := None;
                 stdout := stdout w ++ [created_line] |})
    as (w'' & n & Hrun & _).
  rewrite Hrun in Hfail. simpl in Hfail.
  destruct (load py_float fs fresh_db) as [e'|d'] eqn:Hload; [|discriminate].
  destruct (main_when_load_fails py_float fs w Hload) as (k & ->).
  reflexivity.
Qed.

(** The load of [overflow_files] raises on the second episode row.  The
    open transaction then holds the show row and the first episode row; the
    committed store holds neither, during the run or after it. *)
Lemma failed_load_commits_nothing_witness :
  exists w',
    ingest_data example_float overflow_files initialized_world
      = (inl OverflowError, w')
    /\ option_map (fun d => (option_map (fun t => List.length (Sql.rows t)) (shows d),
                             option_map (fun t => List.length (Sql.rows t)) (episodes d)))
         (pending w') = Some (Some 1, Some 1)
    /\ disk w' = fresh_db
    /\ disk (main example_float overflow_files blank_world) = fresh_db.
Proof.
  eexists. split; [reflexivity|]. split; [reflexivity|].
  destruct (@failed_load_commits_nothing example_float overflow_files
              blank_world initialized_world _ OverflowError
              eq_refl eq_refl)
    as (_ & Hdisk & Hmain).
  split; assumption.
Defined.

(** ** The show load *)

Lemma map_result_ok (A B : Type) (f : A -> result B) (l : list A) (bs : list B) :
  map_result f l = ok bs -> Forall2 (fun a b => f a = ok b) l bs.
Proof.
  revert bs. induction l as [|a l IH]; simpl; intros bs H.
  - injection H as <-. constructor.
  - destruct (f a) as [e|b] eqn:Hb; simpl in H; [discriminate|].
    destruct (map_result f l) as [e|bs'] eqn:Hbs; simpl in H; [discriminate|].
    injection H as <-. constructor; auto.
Qed.

Lemma show_tuple_code (py_float : string -> option Py.float)
    (row : ShowCsv.row) (p : show_params) :
  show_tuple py_float row = ok p -> tuple_code p = ShowCsv.Code row.
Proof.
  unfold show_tuple.
  destruct (rating_count_cleaned _) as [e|rc]; simpl; [discriminate|].
  destruct (float_if_nonempty _ _) as [e|rt]; simpl; [discriminate|].
  destruct (int_if_nonempty _) as [e|rk]; simpl; [discriminate|].
  now intros [= <-].
Qed.

Lemma show_tuples_codes (py_float : string -> option Py.float)
    (reader : list ShowCsv.row) (to_db : list show_params) :
  map_result (show_tuple py_float) reader = ok to_db ->
  map tuple_code to_db = map ShowCsv.Code reader.
Proof.
  intros H. apply map_result_ok in H.
  induction H as [|row p reader to_db Hp _ IH]; simpl; [reflexivity|].
  f_equal; [|exact IH]. eapply show_tuple_code, Hp.
Qed.

(** The conversions of a show row raise nothing but [ValueError]. *)
Lemma show_tuple_error (py_float : string -> option Py.float)
    (reader : list ShowCsv.row) (e : exn) :
  map_result (show_tuple py_float) reader = inl e -> e = ValueError.
Proof.
  assert (forall s e, Py.int s = inl e -> e = ValueError) as Hint.
  { intros s e0. unfold Py.int.
    repeat match goal with
           | |- context [match ?x with _ => _ end] => destruct x
           end; unfold raise, ok; congruence. }
  induction reader as [|row reader IH]; simpl; [discriminate|].
  destruct (show_tuple py_float row) as [e'|p] eqn:Hp; simpl.
  - intros [= <-]. revert Hp. unfold show_tuple, rating_count_cleaned,
      float_if_nonempty, int_if_nonempty, float, rmap.
    repeat match goal with
           | |- context [Py.int ?s] =>
               let H := fresh "H" in
               destruct (Py.int s) eqn:H; [apply Hint in H; subst|]; simpl
           | |- context [match ?x with _ => _ end] => destruct x; simpl
           end; unfold raise, ok; congruence.
  - destruct (map_result (show_tuple py_float) reader) as [e'|ps]; simpl.
    + intros [= <-]. now apply IH.
    + discriminate.
Qed.

Lemma bind_show_code (p : show_params) (r : Shows.row) :
  bind_show p = ok r -> Shows.Code r = tuple_code p.
Proof.
  destruct p as [[[[code title] rating] rc] rk]. unfold bind_show.
  destruct (Sql.bind_optional_int rc) as [e|rc']; simpl; [discriminate|].
  destruct (Sql.bind_optional_int rk) as [e|rk']; simpl; [discriminate|].
  now intros [= <-].
Qed.

Lemma bind_show_error (p : show_params) (e : exn) :
  bind_show p = inl e -> e = OverflowError.
Proof.
  destruct p as [[[[code title] rating] rc] rk].
  unfold bind_show, Sql.bind_optional_int, Sql.bind_int, rmap.
  repeat match goal with
         | |- context [match ?x with _ => _ end] => destruct x; simpl
         | |- context [if ?x then _ else _] => destruct x; simpl
         end; unfold raise, ok; congruence.
Qed.

(** The primary key of [shows] is its [Code] column. *)
Lemma shows_violation (t : Sql.table Shows.row) (r : Shows.row) :
  Sql.tbl_schema t = Shows.schema ->
  Sql.violates_primary_key Shows.column t r = true <->
  In (Shows.Code r) (map Shows.Code (Sql.rows t)).
Proof.
  intros Hschema. unfold Sql.violates_primary_key, Sql.key_of.
  rewrite Hschema. simpl. rewrite existsb_exists, in_map_iff.
  split; intros (r' & H1 & H2); exists r'.
  - rewrite andb_true_r in H2. apply String.eqb_eq in H2. auto.
  - split; [exact H2|]. rewrite andb_true_r. now apply String.eqb_eq.
Qed.

(** A show load that goes through has inserted one row per tuple, and the
    codes of the tuples were pairwise different and new to the table. *)
Lemma insert_shows_ok (to_db : list show_params) :
  forall d d' t,
    shows d = Some t -> Sql.tbl_schema t = Shows.schema ->
    fold_steps insert_into_shows to_db d = ok d' ->
    NoDup (map tuple_code to_db)
    /\ (forall c, In c (map tuple_code to_db) ->
                  ~ In c (map Shows.Code (Sql.rows t)))
    /\ exists bound,
         map_result bind_show to_db = ok bound
         /\ d' = {| shows := Some {| Sql.tbl_schema := Shows.schema;
                                     Sql.rows := Sql.rows t ++ bound |};
                    episodes := episodes d |}.
Proof.
  induction to_db as [|p ps IH]; intros d d' t Ht Hschema Hfold; simpl in *.
  - injection Hfold as <-. split; [constructor|]. split; [intros c []|].
    exists []. split; [reflexivity|]. rewrite app_nil_r.
    destruct d as [s e]. simpl in *. subst s. destruct t. simpl in *. now subst.
  - unfold insert_into_shows at 1 in Hfold. rewrite Ht in Hfold.
    destruct (bind_show p) as [e|r] eqn:Hbind; simpl in Hfold; [discriminate|].
    unfold Sql.insert in Hfold.
    destruct (Sql.violates_primary_key Shows.column t r) eqn:Hviol;
      simpl in Hfold; [discriminate|].
    apply IH with (t := Sql.append_row t r) in Hfold; [|reflexivity|exact Hschema].
    destruct Hfold as (Hnodup & Hnew & bound & Hbound & ->).
    apply bind_show_code in Hbind.
    assert (~ In (tuple_code p) (map Shows.Code (Sql.rows t))) as Hp.
    { rewrite <- Hbind. intros Hin.
      apply (shows_violation t r Hschema) in Hin. congruence. }
    split; [|split].
    + constructor; [|exact Hnodup]. intros Hin. apply (Hnew _ Hin).
      simpl. rewrite map_app, in_app_iff. right. simpl. auto.
    + intros c [<- | Hc]; [exact Hp|]. intros Hin. apply (Hnew c Hc).
      simpl. rewrite map_app, in_app_iff. now left.
    + exists (r :: bound). rewrite Hbound. split; [reflexivity|].
      simpl. now rewrite <- app_assoc.
Qed.

(** A show load that stops raises [OverflowError] for an integer that does
    not fit, or the primary-key violation; it is the violation when every
    tuple can be bound. *)
Lemma insert_shows_error (to_db : list show_params) :
  forall d t e,
    shows d = Some t ->
    fold_steps insert_into_shows to_db d = inl e ->
    (e = OverflowError \/ e = shows_code_violation)
    /\ (forall bound, map_result bind_show to_db = ok bound ->
                      e = shows_code_violation).
Proof.
  induction to_db as [|p ps IH]; intros d t e Ht Hfold; simpl in *;
    [discriminate|].
  unfold insert_into_shows at 1 in Hfold. rewrite Ht in Hfold.
  destruct (bind_show p) as [e'|r] eqn:Hbind; simpl in Hfold.
  - injection Hfold as <-. apply bind_show_error in Hbind. subst e'.
    split; [now left | discriminate].
  - unfold Sql.insert in Hfold.
    destruct (Sql.violates_primary_key Shows.column t r); simpl in Hfold.
    + injection Hfold as <-. split; [now right | reflexivity].
    + apply IH with (t := Sql.append_row t r) in Hfold; [|reflexivity].
      destruct Hfold as [H1 H2]. split; [exact H1|].
      intros bound Hb.
      destruct (map_result bind_show ps) as [e'|bound'] eqn:Hps;
        simpl in Hb; [discriminate|].
      now apply (H2 bound').
Qed.






(** ** The episode load *)

Lemma option_Z_eqb_eq (a b : option Z) : option_Z_eqb a b = true <-> a = b.
Proof.
  destruct a as [x|], b as [y|]; simpl; try (split; congruence).
  rewrite Z.eqb_eq. split; congruence.
Qed.

Lemma key_eqb_eq (k k' : key) : key_eqb k k' = true <-> k = k'.
Proof.
  destruct k as [[c s] e], k' as [[c' s'] e']. simpl.
  rewrite !andb_true_iff, String.eqb_eq, !option_Z_eqb_eq.
  split; [intros [[-> ->] ->]; reflexivity | intros [= -> -> ->]; auto].
Qed.

Lemma key_eqb_refl (k : key) : key_eqb k k = true.
Proof. now apply key_eqb_eq. Qed.

Lemma has_key_complete (r r' : Episodes.row) :
  has_key (episode_key r) r' = true -> key_complete r' = key_complete r.
Proof.
  unfold has_key. rewrite key_eqb_eq. unfold episode_key, key_complete.
  now intros [= _ -> ->].
Qed.

Lemma episodes_key_conflict (r' r : Episodes.row) :
  Sql.key_conflict
    (map (Episodes.column r') (Sql.primary_key Episodes.schema))
    (map (Episodes.column r) (Sql.primary_key Episodes.schema)) =
  key_complete r && has_key (episode_key r) r'.
Proof.
  unfold has_key, episode_key, key_complete, Episodes.column. cbn.
  destruct (Episodes.Season r), (Episodes.Episode r),
    (Episodes.Season r'), (Episodes.Episode r'); cbn;
    rewrite ?andb_false_r, ?andb_true_r; try reflexivity.
  now rewrite andb_assoc.
Qed.

(** The primary key of [episodes]: a new row collides with a stored row
    when its season and episode are both non-null and the stored row has the
    same (parent_code, Season, Episode). *)
Lemma episodes_violation (t : Sql.table Episodes.row) (r : Episodes.row) :
  Sql.tbl_schema t = Episodes.schema ->
  Sql.violates_primary_key Episodes.column t r =
    key_complete r && existsb (has_key (episode_key r)) (Sql.rows t).
Proof.
  intros Hschema. unfold Sql.violates_primary_key, Sql.key_of.
  rewrite Hschema.
  induction (Sql.rows t) as [|r' rs IH].
  - simpl. now rewrite andb_false_r.
  - cbn [existsb]. rewrite IH, episodes_key_conflict.
    now rewrite andb_orb_distrib_r.
Qed.

Lemma bind_episode_ok_fold (to_db : list episode_params) :
  forall d d' t,
    episodes d = Some t -> Sql.tbl_schema t = Episodes.schema ->
    fold_steps insert_or_ignore_into_episodes to_db d = ok d' ->
    exists bound,
      map_result bind_episode to_db = ok bound
      /\ d' = {| shows := shows d;
                 episodes := Some {| Sql.tbl_schema := Episodes.schema;
                                     Sql.rows := fold_left ignore_step bound
                                                   (Sql.rows t) |} |}.
Proof.
  induction to_db as [|p ps IH]; intros d d' t Ht Hschema Hfold; simpl in *.
  - injection Hfold as <-. exists []. split; [reflexivity|].
    destruct d as [s e]. simpl in *. subst e. destruct t. simpl in *. now subst.
  - unfold insert_or_ignore_into_episodes at 1 in Hfold. rewrite Ht in Hfold.
    destruct (bind_episode p) as [e|r] eqn:Hbind; simpl in Hfold; [discriminate|].
    apply IH with (t := Sql.insert_or_ignore Episodes.column t r) in Hfold.
    + destruct Hfold as (bound & Hbound & ->).
      exists (r :: bound). rewrite Hbound. split; [reflexivity|].
      simpl. do 4 f_equal. unfold Sql.insert_or_ignore, ignore_step.
      rewrite (episodes_violation t r Hschema).
      now destruct (key_complete r && _).
    + reflexivity.
    + unfold Sql.insert_or_ignore. now destruct (Sql.violates_primary_key _ _ _).
Qed.

Lemma has_key_same (r r2 r' : Episodes.row) :
  has_key (episode_key r2) r = true ->
  has_key (episode_key r2) r' = has_key (episode_key r) r'.
Proof.
  unfold has_key at 1. rewrite key_eqb_eq. now intros ->.
Qed.

Lemma existsb_has_key_same (r r2 : Episodes.row) (l : list Episodes.row) :
  has_key (episode_key r2) r = true ->
  existsb (has_key (episode_key r2)) l = existsb (has_key (episode_key r)) l.
Proof.
  intros H. induction l as [|r' l IH]; simpl; [reflexivity|].
  now rewrite IH, (has_key_same r r2 r' H).
Qed.

(** The table after the inserts is what it held, followed by the first
    occurrences among the new rows, provided the table holds the complete
    keys seen so far. *)
Lemma fold_ignore_first_occurrences (rows : list Episodes.row) :
  forall stored earlier,
    (forall r, key_complete r = true ->
               existsb (has_key (episode_key r)) stored
               = existsb (has_key (episode_key r)) earlier) ->
    fold_left ignore_step rows stored = stored ++ first_occurrences earlier rows.
Proof.
  induction rows as [|r rows IH]; intros stored earlier Hinv; simpl.
  - now rewrite app_nil_r.
  - unfold ignore_step at 2.
    destruct (key_complete r) eqn:Hc; simpl.
    + rewrite <- (Hinv r Hc).
      destruct (existsb (has_key (episode_key r)) stored) eqn:Hseen.
      * apply IH. intros r2 Hc2. rewrite existsb_app. simpl.
        rewrite orb_false_r.
        destruct (has_key (episode_key r2) r) eqn:Hsame.
        -- rewrite orb_true_r.
           now rewrite (existsb_has_key_same r r2 stored Hsame).
        -- rewrite orb_false_r. now apply Hinv.
      * rewrite (IH (stored ++ [r]) (earlier ++ [r])).
        -- now rewrite <- app_assoc.
        -- intros r2 Hc2. rewrite !existsb_app. now rewrite (Hinv r2 Hc2).
    + rewrite (IH (stored ++ [r]) (earlier ++ [r])).
      * now rewrite <- app_assoc.
      * intros r2 Hc2. rewrite !existsb_app. now rewrite (Hinv r2 Hc2).
Qed.

(** Rows with an incomplete key are all kept. *)
Lemma first_occurrences_incomplete (rows earlier : list Episodes.row) :
  filter key_incomplete (first_occurrences earlier rows)
  = filter key_incomplete rows.
Proof.
  revert earlier. induction rows as [|r rows IH]; intros earlier; simpl;
    [reflexivity|].
  unfold key_incomplete at 2 4.
  destruct (key_complete r) eqn:Hc; simpl.
  - destruct (existsb _ earlier); simpl.
    + apply IH.
    + unfold key_incomplete at 1. rewrite Hc. simpl. apply IH.
  - unfold key_incomplete at 1. rewrite Hc. simpl. f_equal. apply IH.
Qed.

(** Of the rows with a given complete key exactly the first is kept, unless
    a row read earlier already had the key. *)
Lemma first_occurrences_key (r0 : Episodes.row) (rows : list Episodes.row) :
  key_complete r0 = true ->
  forall earlier,
    filter (has_key (episode_key r0)) (first_occurrences earlier rows) =
      if existsb (has_key (episode_key r0)) earlier then []
      else match find (has_key (episode_key r0)) rows with
           | Some r => [r]
           | None => []
           end.
Proof.
  intros Hc0. induction rows as [|r rows IH]; intros earlier; simpl.
  - now destruct (existsb _ earlier).
  - destruct (has_key (episode_key r0) r) eqn:Hsame.
    + rewrite (has_key_complete r0 r Hsame), Hc0. simpl.
      rewrite <- (existsb_has_key_same r r0 earlier Hsame).
      destruct (existsb (has_key (episode_key r0)) earlier) eqn:Hseen.
      * rewrite IH, existsb_app, Hseen. reflexivity.
      * simpl. rewrite Hsame, IH, existsb_app. simpl.
        now rewrite Hsame, orb_true_r.
    + assert (filter (has_key (episode_key r0))
                (first_occurrences (earlier ++ [r]) rows) =
              if existsb (has_key (episode_key r0)) earlier then []
              else match find (has_key (episode_key r0)) rows with
                   | Some r => [r]
                   | None => []
                   end) as Hrest.
      { rewrite IH, existsb_app. simpl. now rewrite Hsame, !orb_false_r. }
      destruct (key_complete r && existsb (has_key (episode_key r)) earlier);
        simpl; rewrite ?Hsame; exact Hrest.
Qed.

(** The complete keys of the kept rows are pairwise different, and are the
    complete keys of the rows read that no earlier row had. *)
Lemma first_occurrences_keys (rows : list Episodes.row) :
  forall earlier,
    NoDup (map episode_key (filter key_complete (first_occurrences earlier rows)))
    /\ forall k,
         In k (map episode_key
                 (filter key_complete (first_occurrences earlier rows))) <->
         In k (map episode_key (filter key_complete rows))
         /\ existsb (has_key k) earlier = false.
Proof.
  induction rows as [|r rows IH]; intros earlier; simpl.
  - split; [constructor | intros k; tauto].
  - destruct (IH (earlier ++ [r])) as [Hnodup Hmem].
    assert (forall k, has_key k r = true -> k = episode_key r) as Hkey.
    { intros k H. unfold has_key in H. now apply key_eqb_eq in H. }
    assert (has_key (episode_key r) r = true) as Hrefl
      by apply key_eqb_refl.
    destruct (key_complete r) eqn:Hc; simpl.
    + destruct (existsb (has_key (episode_key r)) earlier) eqn:Hseen; simpl.
      * split; [exact Hnodup|]. intros k. rewrite Hmem, existsb_app. simpl.
        rewrite orb_false_r. split.
        -- intros [Hin Hno]. apply orb_false_iff in Hno. tauto.
        -- intros [[<- | Hin] Hno]; [congruence|].
           split; [exact Hin|]. apply orb_false_iff. split; [exact Hno|].
           destruct (has_key k r) eqn:Hk; [|reflexivity].
           apply Hkey in Hk. congruence.
      * rewrite Hc. simpl. split.
        -- constructor; [|exact Hnodup]. rewrite Hmem, existsb_app. simpl.
           rewrite Hrefl, !orb_true_r. intros [_ H]. discriminate H.
        -- intros k. rewrite Hmem, existsb_app. simpl. rewrite orb_false_r.
           split.
           ++ intros [<- | [Hin Hno]]; [auto|].
              apply orb_false_iff in Hno. tauto.
           ++ intros [[<- | Hin] Hno]; [now left|].
              destruct (has_key k r) eqn:Hk.
              ** left. symmetry. now apply Hkey.
              ** right. split; [exact Hin|]. now rewrite Hno.
    + rewrite Hc. split; [exact Hnodup|]. intros k.
      rewrite Hmem, existsb_app. simpl. rewrite orb_false_r. split.
      * intros [Hin Hno]. apply orb_false_iff in Hno. tauto.
      * intros [Hin Hno]. split; [exact Hin|]. rewrite Hno. simpl.
        destruct (has_key k r) eqn:Hk; [|reflexivity].
        apply in_map_iff in Hin. destruct Hin as (r2 & <- & Hr2).
        apply filter_In in Hr2. destruct Hr2 as [_ Hc2].
        apply has_key_complete in Hk. congruence.
Qed.

(** The number of rows kept: one per distinct complete key, and one per row
    with an incomplete key. *)
Lemma first_occurrences_length (rows : list Episodes.row) :
  List.length (first_occurrences [] rows) =
    List.length (nodup key_dec (map episode_key (filter key_complete rows)))
    + List.length (filter key_incomplete rows).
Proof.
  rewrite <- (filter_length key_complete (first_occurrences [] rows)).
  fold key_incomplete.
  change (fun x => negb (key_complete x)) with key_incomplete.
  rewrite first_occurrences_incomplete. f_equal.
  rewrite <- (length_map episode_key).
  apply Permutation_length, NoDup_Permutation.
  - apply first_occurrences_keys.
  - apply NoDup_nodup.
  - intros k. rewrite nodup_In.
    rewrite (proj2 (first_occurrences_keys rows [])). simpl. tauto.
Qed.

Lemma map_result_compose (A B C : Type) (f : A -> result B) (g : B -> result C)
    (l : list A) (bs : list B) (cs : list C) :
  map_result f l = ok bs -> map_result g bs = ok cs ->
  map_result (fun a => rbind (f a) g) l = ok cs.
Proof.
  revert bs cs. induction l as [|a l IH]; simpl; intros bs cs Hf Hg.
  - injection Hf as <-. exact Hg.
  - destruct (f a) as [e|b]; simpl in *; [discriminate|].
    destruct (map_result f l) as [e|bs'] eqn:Hbs; simpl in Hf; [discriminate|].
    injection Hf as <-. simpl in Hg.
    destruct (g b) as [e|c]; simpl in *; [discriminate|].
    destruct (map_result g bs') as [e|cs'] eqn:Hcs; simpl in Hg; [discriminate|].
    injection Hg as <-. now rewrite (IH bs' cs' eq_refl Hcs).
Qed.

(** What a load that returns has committed to the episode table, starting
    from the freshly created tables. *)
Lemma ingest_data_episode_rows (py_float : string -> option Py.float)
    (fs : files) (reader : list EpisodeCsv.row) (w w' : world) :
  episode_csv fs = Some reader ->
  disk w = fresh_db ->
  ingest_data py_float fs w = (ok tt, w') ->
  exists parsed,
    map_result (episode_row_of py_float) reader = ok parsed
    /\ episodes (disk w') =
         Some {| Sql.tbl_schema := Episodes.schema;
                 Sql.rows := first_occurrences [] parsed |}.
Proof.
  intros Hfile Hfresh Hok.
  destruct (ingest_data_load py_float fs w) as (w'' & n & Hrun & Hdisk & _).
  rewrite Hrun in Hok. rewrite Hfresh in *. clear Hrun.
  destruct (load py_float fs fresh_db) as [e|d'] eqn:Hload; simpl in Hok;
    [discriminate|].
  injection Hok as ->. rewrite Hdisk. clear Hdisk.
  unfold load in Hload.
  destruct (load_shows py_float fs fresh_db) as [e|d1] eqn:Hshows;
    simpl in Hload; [discriminate|].
  assert (episodes d1 = Some empty_episodes) as Hd1.
  { unfold load_shows in Hshows.
    destruct (opened _ (show_csv fs)) as [e|sreader]; simpl in Hshows;
      [discriminate|].
    destruct (map_result (show_tuple py_float) sreader) as [e|to_db];
      simpl in Hshows; [discriminate|].
    destruct (insert_shows_ok to_db fresh_db eq_refl eq_refl Hshows)
      as (_ & _ & bound & _ & ->). reflexivity. }
  unfold load_episodes in Hload. rewrite Hfile in Hload. simpl in Hload.
  destruct (map_result (episode_tuple py_float) reader) as [e|to_db] eqn:Htuples;
    simpl in Hload; [discriminate|].
  unfold episodes_exists in Hload. rewrite Hd1 in Hload. simpl in Hload.
  destruct (bind_episode_ok_fold to_db d1 Hd1 eq_refl Hload)
    as (bound & Hbound & ->).
  exists bound. split.
  - unfold episode_row_of. eapply map_result_compose; eassumption.
  - simpl. rewrite (fold_ignore_first_occurrences bound [] []); reflexivity.
Qed.

(** C1, amended. For every episode source that loads into the freshly
    created tables, the Episode table holds, in input-file order: for each
    distinct (Code, Season, Episode) tuple whose Season and Episode are both
    non-null, exactly one row, the first of the input with that tuple, later
    ones being silently dropped; and every row whose parsed Season or
    Episode is null.  Its row count is the number of distinct tuples without
    a null plus the number of rows with a null Season or Episode. *)
Theorem episode_load_keeps_first_per_complete_key
    (py_float : string -> option Py.float) (fs : files)
    (reader : list EpisodeCsv.row) (w w' : world)
    (Hfile : episode_csv fs = Some reader)
    (Hfresh : disk w = fresh_db)
    (Hok : ingest_data py_float fs w = (ok tt, w')) :
  exists parsed retained,
    map_result (episode_row_of py_float) reader = ok parsed
    /\ episodes (disk w') =
         Some {| Sql.tbl_schema := Episodes.schema; Sql.rows := retained |}
    /\ retained = first_occurrences [] parsed
    /\ (forall r, In r parsed -> key_complete r = true ->
          exists first,
            find (has_key (episode_key r)) parsed = Some first
            /\ filter (has_key (episode_key r)) retained = [first])
    /\ filter key_incomplete retained = filter key_incomplete parsed
    /\ List.length retained =
         List.length (nodup key_dec (map episode_key (filter key_complete parsed)))
         + List.length (filter key_incomplete parsed).
Proof.
  destruct (@ingest_data_episode_rows py_float fs reader w w' Hfile Hfresh Hok)
    as (parsed & Hparsed & Htable).
  exists parsed, (first_occurrences [] parsed).
  split; [exact Hparsed|]. split; [exact Htable|]. split; [reflexivity|].
  split; [|split].
  - intros r Hin Hc.
    rewrite (first_occurrences_key r parsed Hc []). simpl.
    destruct (find (has_key (episode_key r)) parsed) as [first|] eqn:Hfind.
    + now exists first.
    + apply find_none with (x := r) in Hfind; [|exact Hin].
      unfold has_key in Hfind. now rewrite key_eqb_refl in Hfind.
  - apply first_occurrences_incomplete.
  - apply first_occurrences_length.
Qed.

(** C1 as stated fails on tuples with a null: the two rows of
    [null_key_files] parse to the same tuple [("S1", null, 1)], the load
    keeps both, and the Episode table has two rows for one distinct key. *)
Lemma null_key_duplicates_both_kept :
  let w' := main example_float null_key_files blank_world in
  let r1 := episode_row "e1" "S1" None (Some 1%Z) (Some (Py.Fin 4)) in
  let r2 := episode_row "e2" "S1" None (Some 1%Z) (Some (Py.Fin (9 # 2))) in
  map_result (episode_row_of example_float)
    [episode_csv_row "e1" "S1" "" "1" "4.0"; episode_csv_row "e2" "S1" "" "1" "4.5"]
    = ok [r1; r2]
  /\ episode_key r1 = episode_key r2
  /\ option_map (@Sql.rows _) (episodes (disk w')) = Some [r1; r2]
  /\ List.length (nodup key_dec (map episode_key [r1; r2])) = 1
  /\ List.length [r1; r2] <> List.length (nodup key_dec (map episode_key [r1; r2])).
Proof.
  repeat split. vm_compute. discriminate.
Qed.

(** A source where the key [("S1", 1, 1)] comes twice: the first row with
    the key is kept, the third row of the source is dropped. *)
Lemma episode_load_keeps_first_per_complete_key_witness :
  exists retained,
    option_map (@Sql.rows _)
      (episodes (disk (main example_float repeated_key_files blank_world)))
      = Some retained
    /\ retained = [episode_row "e1" "S1" (Some 1%Z) (Some 1%Z) (Some (Py.Fin 4));
                   episode_row "e2" "S1" (Some 1%Z) (Some 2%Z) (Some (Py.Fin (9 # 2)))]
    /\ List.length retained = 2.
Proof.
  destruct (@episode_load_keeps_first_per_complete_key example_float
              repeated_key_files _ initialized_world _ eq_refl eq_refl eq_refl)
    as (parsed & retained & Hparsed & Htable & Hretained & _ & _ & Hlen).
  exists retained. injection Hparsed as <-.
  split; [|split].
  - vm_compute in Htable. injection Htable as <-. reflexivity.
  - rewrite Hretained. reflexivity.
  - rewrite Hlen. reflexivity.
Defined.


(** * Examples *)

Example int_examples :
  Py.int "12345" = ok 12345%Z
  /\ Py.int " -1_000 " = ok (-1000)%Z
  /\ Py.int "" = raise ValueError
  /\ Py.int "1__0" = raise ValueError
  /\ Py.int "12a" = raise ValueError
  /\ Py.int "- 1" = raise ValueError.
Proof. repeat split. Qed.

(** The end-to-end scenario: Query 1 lists Alpha only; Query 2 lists Alpha
    with two seasons; Query 3 gives Alpha with two episodes and two seasons;
    Query 4 gives Beta with no episode and no season. *)
Example scenario_reports :
  let d := disk (main example_float scenario_files blank_world) in
  query1 d = ok [("Alpha"%string, Some (Py.Fin 4))]
  /\ query2 d = ok [("Alpha"%string, 2)]
  /\ query3 d = ok (Some ("S1"%string, "Alpha"%string, Some 1000%Z, Some 2%Z))
  /\ episode_counts "S1" d = ok (2, 2)
  /\ query4 d = ok (Some ("S2"%string, "Beta"%string, Some 500%Z, Some 1%Z))
  /\ episode_counts "S2" d = ok (0, 0).
Proof. repeat split. Qed.

(** * Reporter: the four sections *)

Lemma read_only_bind (A B : Type) (m : M A) (k : A -> M B) :
  read_only m -> (forall a, read_only (k a)) -> read_only (bind m k).
Proof.
  intros Hm Hk w. unfold bind. specialize (Hm w).
  destruct (m w) as [[e|a] w1]; simpl in *; [exact Hm|].
  now rewrite Hk.
Qed.

Lemma read_only_print (l : line) : read_only (print l).
Proof. intros w. reflexivity. Qed.

Lemma read_only_fetch (A : Type) (query : db -> result A) : read_only (fetch query).
Proof. intros w. reflexivity. Qed.

Lemma read_only_print_each (A : Type) (fmt : A -> line) (results : list A) :
  read_only (print_each fmt results).
Proof.
  intros w. now rewrite print_each_run.
Qed.

Lemma read_only_print_show (result : show_result) : read_only (print_show result).
Proof.
  destruct result as [[[show_code show_title] rating_count] rank].
  unfold print_show.
  repeat (apply read_only_bind; [|intros ?]);
    auto using read_only_print, read_only_fetch.
Qed.

Lemma read_only_report1 : read_only report1.
Proof.
  unfold report1.
  apply read_only_bind; [apply read_only_print | intros _].
  apply read_only_bind; [apply read_only_fetch | intros results].
  apply read_only_bind; [|intros _; apply read_only_print].
  destruct results; [apply read_only_print | apply read_only_print_each].
Qed.

Lemma read_only_report2 : read_only report2.
Proof.
  unfold report2.
  apply read_only_bind; [apply read_only_print | intros _].
  apply read_only_bind; [apply read_only_fetch | intros results].
  apply read_only_bind; [|intros _; apply read_only_print].
  destruct results; [apply read_only_print | apply read_only_print_each].
Qed.

Lemma read_only_report3 : read_only report3.
Proof.
  unfold report3.
  apply read_only_bind; [apply read_only_print | intros _].
  apply read_only_bind; [apply read_only_fetch | intros result].
  apply read_only_bind; [|intros _; apply read_only_print].
  destruct result; [apply read_only_print_show | apply read_only_print].
Qed.

Lemma read_only_report4 : read_only report4.
Proof.
  unfold report4.
  apply read_only_bind; [apply read_only_print | intros _].
  apply read_only_bind; [apply read_only_fetch | intros result].
  apply read_only_bind; [|intros _; apply read_only_print].
  destruct result; [apply read_only_print_show | apply read_only_print].
Qed.

(** X1. The report phase never changes the committed store: on every store,
    with or without the tables, whether it returns or raises. *)
Theorem run_reports_read_only (w : world) :
  disk (snd (run_reports w)) = disk w.
Proof.
  revert w. change (read_only run_reports). unfold run_reports.
  apply read_only_bind; [intros w; reflexivity | intros _].
  apply read_only_bind; [apply read_only_print | intros _].
  apply read_only_bind; [apply read_only_report1 | intros _].
  apply read_only_bind; [apply read_only_report2 | intros _].
  apply read_only_bind; [apply read_only_report3 | intros _].
  apply read_only_bind; [apply read_only_report4 | intros _].
  intros w; reflexivity.
Qed.

Lemma report2_run (w : world) (results : list (string * nat)) :
  query2 (view w) = ok results ->
  report2 w =
    (ok tt, {| disk := disk w; pending := pending w;
               stdout := stdout w ++ report2_lines results |}).
Proof.
  intros Hq. unfold report2, bind, fetch, print at 1. simpl.
  unfold view in *. simpl. rewrite Hq. unfold report2_lines.
  destruct results as [|r rs].
  - unfold print, ok. simpl. now rewrite <- !app_assoc.
  - unfold ok at 1. cbv beta iota.
    rewrite print_each_run. unfold print, ok. simpl.
    rewrite <- !app_assoc. reflexivity.
Qed.

Lemma episode_counts_lookup (d : db) (te : Sql.table Episodes.row) (code : string) :
  episodes d = Some te -> episode_counts code d = ok (lookup_counts te code).
Proof. intros He. unfold episode_counts. now rewrite He. Qed.

(** Reports 3 and 4 share their body: heading, then either the show with
    its two counts or the line for an empty result, then the dashes. *)
Lemma show_section_run (heading none : string)
    (query : db -> result (option show_result)) (w : world)
    (te : Sql.table Episodes.row) (result : option show_result) :
  episodes (view w) = Some te ->
  query (view w) = ok result ->
  (print (Line heading) ;;
   result <- fetch query ;;
   match result with
   | Some r => print_show r
   | None => print (Line none)
   end ;;
   print dashes) w =
    (ok tt, {| disk := disk w; pending := pending w;
               stdout := stdout w ++ show_section heading none te result |}).
Proof.
  intros He Hq. unfold bind, fetch, print at 1. simpl.
  unfold view in *. simpl. rewrite Hq. unfold ok at 1. cbv beta iota.
  unfold show_section.
  destruct result as [[[[show_code show_title] rating_count] rank]|].
  - unfold print_show, bind, fetch, print, view. simpl.
    rewrite (episode_counts_lookup _ show_code He). unfold ok. simpl.
    rewrite <- !app_assoc. reflexivity.
  - unfold print, ok. simpl. now rewrite <- !app_assoc.
Qed.

Lemma query_results_exist (d : db) (ts : Sql.table Shows.row)
    (te : Sql.table Episodes.row) :
  shows d = Some ts -> episodes d = Some te ->
  exists r1 r2 r3 r4,
    query1 d = ok r1 /\ query2 d = ok r2 /\ query3 d = ok r3 /\ query4 d = ok r4.
Proof.
  intros Hs He. unfold query1, query2, query3, query4. rewrite Hs, He.
  do 4 eexists. repeat split.
Qed.

(** The run of the report phase on a store that has both tables. *)
Lemma run_reports_run (w : world) (ts : Sql.table Shows.row)
    (te : Sql.table Episodes.row)
    (Hshows : shows (disk w) = Some ts)
    (Hepisodes : episodes (disk w) = Some te) :
  exists r1 r2 r3 r4,
    query1 (disk w) = ok r1 /\ query2 (disk w) = ok r2
    /\ query3 (disk w) = ok r3 /\ query4 (disk w) = ok r4
    /\ run_reports w =
         (ok tt,
          {| disk := disk w; pending := None;
             stdout := stdout w ++ reports_banner
                       :: report1_lines r1 ++ report2_lines r2
                          ++ report3_lines te r3 ++ report4_lines te r4 |}).
Proof.
  destruct (query_results_exist (disk w) Hshows Hepisodes)
    as (r1 & r2 & r3 & r4 & H1 & H2 & H3 & H4).
  exists r1, r2, r3, r4. repeat (split; [assumption|]).
  unfold run_reports.
  unfold bind at 1. unfold connect. unfold ok at 1. cbv beta iota.
  unfold bind at 1. unfold print at 1. unfold ok at 1. cbv beta iota.
  unfold bind at 1. rewrite (report1_run _ (results := r1)); [|exact H1].
  unfold ok at 1. cbv beta iota.
  unfold bind at 1. rewrite (report2_run _ (results := r2)); [|exact H2].
  unfold ok at 1. cbv beta iota.
  unfold bind at 1. unfold report3.
  rewrite (show_section_run _ _ query3 _ (te := te) (result := r3));
    [|exact Hepisodes|exact H3].
  unfold ok at 1. cbv beta iota.
  unfold bind at 1. unfold report4.
  rewrite (show_section_run _ _ query4 _ (te := te) (result := r4));
    [|exact Hepisodes|exact H4].
  unfold ok at 1. cbv beta iota. unfold close, with_pending.
  cbn [disk pending stdout]. unfold report3_lines, report4_lines.
  rewrite <- !app_assoc. reflexivity.
Qed.



(** Three shows stored in the order Bravo, Alpha, Charlie, all rated 4.0
    and all with two seasons: section 1 lists them as they are stored,
    section 2 from the highest title to the lowest. *)
Example query2_tied_titles :
  query1 tied_titles_db
  = ok [("Bravo"%string, Some (Py.Fin 4)); ("Alpha"%string, Some (Py.Fin 4));
        ("Charlie"%string, Some (Py.Fin 4))]
  /\ query2 tied_titles_db
     = ok [("Charlie"%string, 2); ("Bravo"%string, 2); ("Alpha"%string, 2)].
Proof. split; vm_compute; reflexivity. Qed.

Example run_reports_tied_titles :
  stdout (snd (run_reports {| disk := tied_titles_db; pending := None;
                              stdout := [] |}))
  = [reports_banner;
     Line "1. Shows with a rating less than or equal to 5:";
     RatedLine "Bravo" (Some (Py.Fin 4));
     RatedLine "Alpha" (Some (Py.Fin 4));
     RatedLine "Charlie" (Some (Py.Fin 4));
     dashes;
     Line "2. Of the shows above, which have more than 1 season:";
     SeasonsLine "Charlie" 2; SeasonsLine "Bravo" 2; SeasonsLine "Alpha" 2;
     dashes;
     Line "3. Show(s) with the highest rating count and lowest rank:";
     ShowLine "Bravo"; RatingCountLine None; RankLine None;
     TotalEpisodesLine 2; TotalSeasonsLine 2;
     dashes;
     Line "4. Show(s) with the lowest rating count and highest rank:";
     Line "  Could not determine the show with the lowest rating count and highest rank.";
     dashes].
Proof. vm_compute. reflexivity. Qed.

(** X3. On a store without the [shows] table the report phase stops at its
    first query: it has printed the banner and the first heading, and raises
    the "no such table" error. *)
Theorem run_reports_without_shows_table (w : world)
    (Hnone : shows (disk w) = None) :
  run_reports w =
    (inl (no_such_table "shows"),
     {| disk := disk w; pending := None;
        stdout := stdout w ++
          [reports_banner;
           Line "1. Shows with a rating less than or equal to 5:"] |}).
Proof.
  unfold run_reports, report1, bind, connect, print, fetch, view, query1.
  simpl. rewrite Hnone. simpl. now rewrite <- app_assoc.
Qed.

Lemma run_reports_without_shows_table_witness :
  fst (run_reports blank_world) = inl (no_such_table "shows").
Proof.
  now rewrite (@run_reports_without_shows_table blank_world eq_refl).
Defined.

(** * Queries 3 and 4: the row that is returned *)

Lemma null_first_compare_refl (a : option Z) : Sql.null_first_compare a a = Eq.
Proof. destruct a; simpl; [apply Z.compare_refl | reflexivity]. Qed.



(** The order of nullable integers as a number: null below everything. *)
Ltac null_first_cases :=
  repeat match goal with
         | o : option Z |- _ => destruct o
         end;
  simpl in *;
  repeat match goal with
         | |- context [Z.compare ?x ?y] => destruct (Z.compare_spec x y)
         | H : context [Z.compare ?x ?y] |- _ => destruct (Z.compare_spec x y)
         end;
  try congruence; try lia.


Lemma null_first_compare_trans_lt (a b c : option Z) :
  Sql.null_first_compare a b <> Gt -> Sql.null_first_compare b c = Lt ->
  Sql.null_first_compare a c = Lt.
Proof. null_first_cases. Qed.









Lemma hd_order_by_nonempty (A : Type) (before : A -> A -> bool) (l : list A) :
  l <> [] -> exists s, hd_error (Sql.order_by before l) = Some s.
Proof.
  intros Hne. destruct (Sql.order_by before l) as [|h rest] eqn:Hl.
  - exfalso. apply Hne. apply Permutation_nil.
    rewrite <- Hl. apply order_by_perm.
  - now exists h.
Qed.





(** X6. Query 3 has no row to return exactly when the Show table is empty, and
    Query 4 exactly when no show has a rating count; these are the cases in
    which reports 3 and 4 print their "Could not determine" line. *)
Theorem query3_query4_no_result (d : db) (t : Sql.table Shows.row)
    (Hshows : shows d = Some t) :
  (query3 d = ok None <-> Sql.rows t = [])
  /\ (query4 d = ok None <->
      forall s, In s (Sql.rows t) -> Shows.RatingCount s = None).
Proof.
  assert (forall (before : Shows.row -> Shows.row -> bool) l,
            hd_error (Sql.order_by before l) = None <-> l = []) as Hnone.
  { intros before l. split.
    - intros H. destruct l as [|x l]; [reflexivity|].
      destruct (@hd_order_by_nonempty _ before (x :: l)) as (s & Hs);
        [discriminate | congruence].
    - now intros ->. }
  unfold query3, query4. rewrite Hshows. fold has_rating_count. split.
  - rewrite <- (Hnone query3_order). split.
    + intros [= H]. destruct (hd_error _); [discriminate | reflexivity].
    + now intros ->.
  - transitivity (filter has_rating_count (Sql.rows t) = []).
    + rewrite <- (Hnone query4_order). split.
      * intros [= H]. destruct (hd_error _); [discriminate | reflexivity].
      * now intros ->.
    + split.
      * intros Hnil s Hs. destruct (Shows.RatingCount s) as [n|] eqn:Hn;
          [|reflexivity].
        assert (In s (filter has_rating_count (Sql.rows t))) as H.
        { apply filter_In. split; [exact Hs|].
          unfold has_rating_count. now rewrite Hn. }
        now rewrite Hnil in H.
      * intros Hall. induction (Sql.rows t) as [|x l IH]; [reflexivity|].
        simpl. unfold has_rating_count at 1.
        rewrite (Hall x (or_introl eq_refl)). apply IH.
        intros s Hs. apply Hall. now right.
Qed.

Lemma query3_query4_no_result_witness :
  query3 fresh_db = ok None /\ query4 fresh_db = ok None.
Proof.
  destruct (@query3_query4_no_result fresh_db empty_shows eq_refl) as [H3 H4].
  split; [now apply H3|]. apply H4. intros s [].
Defined.

(** * Query 2 and the lookup *)

Lemma season_count_desc_total (a b : string * nat) :
  season_count_desc a b = true \/ season_count_desc b a = true.
Proof.
  unfold season_count_desc. rewrite !Nat.leb_le. lia.
Qed.

Lemma season_count_desc_trans (a b c : string * nat) :
  season_count_desc a b = true -> season_count_desc b c = true ->
  season_count_desc a c = true.
Proof.
  unfold season_count_desc. rewrite !Nat.leb_le. lia.
Qed.

(** A HAVING filter keeps the titles of the groups pairwise different. *)
Lemma having_keeps_titles_distinct (keep : string * nat -> bool)
    (groups : list (string * nat)) :
  NoDup (map fst groups) -> NoDup (map fst (filter keep groups)).
Proof.
  intros Hdistinct. induction groups as [|g groups IH]; simpl in *.
  - constructor.
  - apply NoDup_cons_iff in Hdistinct. destruct Hdistinct as [Hnew Hrest].
    destruct (keep g); simpl; [|now apply IH].
    constructor; [|now apply IH].
    rewrite in_map_iff. intros (g' & Hfst & Hin).
    apply filter_In in Hin. apply Hnew.
    rewrite <- Hfst. apply in_map. tauto.
Qed.

Lemma StronglySorted_weaken (A : Type) (R R' : A -> A -> Prop) (l : list A) :
  (forall a b, R a b -> R' a b) -> StronglySorted R l -> StronglySorted R' l.
Proof.
  intros HR HS. induction HS as [|a l HS IH Hall]; constructor; [exact IH|].
  eapply Forall_impl; [|exact Hall]. auto.
Qed.

Lemma group_by_title_titles (joined : list (Shows.row * Episodes.row)) :
  map fst (group_by_title joined)
  = Sql.order_by title_desc
      (nodup string_dec (map (fun p => Shows.Title (fst p)) joined)).
Proof.
  unfold group_by_title. rewrite map_map. simpl. apply map_id.
Qed.

(** No title has two groups. *)
Lemma group_by_title_distinct (joined : list (Shows.row * Episodes.row)) :
  NoDup (map fst (group_by_title joined)).
Proof.
  rewrite group_by_title_titles.
  eapply Permutation_NoDup; [symmetry; apply order_by_perm | apply NoDup_nodup].
Qed.

(** X7. Query 2 lists only titles that Query 1 lists, each title once, each
    with a season count above one, in the order of the season counts from
    highest to lowest. *)
Theorem query2_refines_query1 (d : db) (ts : Sql.table Shows.row)
    (te : Sql.table Episodes.row)
    (Hshows : shows d = Some ts) (Hepisodes : episodes d = Some te) :
  exists r1 r2,
    query1 d = ok r1 /\ query2 d = ok r2
    /\ (forall title n, In (title, n) r2 ->
          1 < n /\ exists rating, In (title, rating) r1)
    /\ NoDup (map fst r2)
    /\ StronglySorted (fun a b => snd b <= snd a) r2.
Proof.
  unfold query1, query2. rewrite Hshows, Hepisodes.
  do 2 eexists. split; [reflexivity|]. split; [reflexivity|].
  split; [|split].
  - intros title n Hin. apply order_by_In, filter_In in Hin.
    destruct Hin as [Hin Hn]. simpl in Hn. apply Nat.ltb_lt in Hn.
    split; [exact Hn|].
    apply in_group_by_title in Hin. destruct Hin as (l & -> & _ & Hl).
    destruct l as [|z l]; [simpl in Hn; lia|].
    destruct (proj1 (Hl z) (or_introl eq_refl))
      as (s & e & Hs & Hlow & Ht & _).
    exists (Shows.Rating s). apply in_map_iff. exists s. split.
    + now rewrite Ht.
    + apply order_by_In, filter_In. auto.
  - eapply Permutation_NoDup.
    + apply Permutation_map. symmetry. apply order_by_perm.
    + apply having_keeps_titles_distinct. apply group_by_title_distinct.
  - apply StronglySorted_weaken
      with (R := fun a b => season_count_desc a b = true).
    + intros a b H. unfold season_count_desc in H. now apply Nat.leb_le in H.
    + apply order_by_strongly_sorted;
        [apply season_count_desc_total | apply season_count_desc_trans].
Qed.

Lemma query2_refines_query1_witness :
  exists r1 r2,
    query1 null_season_db = ok r1 /\ query2 null_season_db = ok r2
    /\ NoDup (map fst r2).
Proof.
  destruct (@query2_refines_query1 null_season_db null_season_shows
              null_season_episodes eq_refl eq_refl)
    as (r1 & r2 & H1 & H2 & _ & Hnodup & _).
  exists r1, r2. auto.
Defined.

Lemma flat_map_option_length (xs : list (option Z)) :
  List.length (flat_map (fun o => match o with Some z => [z] | None => [] end) xs)
  <= List.length xs.
Proof.
  induction xs as [|[z|] xs IH]; simpl; lia.
Qed.

Lemma count_distinct_le (xs : list (option Z)) :
  Sql.count_distinct xs <= List.length xs.
Proof.
  unfold Sql.count_distinct.
  etransitivity; [|apply flat_map_option_length].
  apply NoDup_incl_length; [apply NoDup_nodup|].
  intros z Hz. now apply nodup_In in Hz.
Qed.

(** X8. The lookup that follows Queries 3 and 4 never raises on a store with
    the Episode table; the number of seasons it gives never exceeds the
    number of episodes, which never exceeds the size of the table; and for a
    show code that no episode row carries both numbers are zero. *)
Theorem episode_counts_bounds (d : db) (te : Sql.table Episodes.row)
    (show_code : string) (Hepisodes : episodes d = Some te) :
  exists ep_count season_count,
    episode_counts show_code d = ok (ep_count, season_count)
    /\ season_count <= ep_count
    /\ ep_count <= List.length (Sql.rows te)
    /\ ((forall e, In e (Sql.rows te) -> Episodes.parent_code e <> show_code) ->
        ep_count = 0 /\ season_count = 0).
Proof.
  rewrite (episode_counts_lookup d show_code Hepisodes).
  unfold lookup_counts. do 2 eexists. split; [reflexivity|].
  split; [|split].
  - etransitivity; [apply count_distinct_le|]. now rewrite length_map.
  - unfold episodes_of. apply filter_length_le.
  - intros Hnone.
    assert (episodes_of show_code te = []) as ->; [|split; reflexivity].
    unfold episodes_of. induction (Sql.rows te) as [|e l IH]; [reflexivity|].
    simpl. destruct (String.eqb_spec (Episodes.parent_code e) show_code) as [Heq|_].
    + exfalso. apply (Hnone e); [now left | exact Heq].
    + apply IH. intros e' He'. apply Hnone. now right.
Qed.

Lemma episode_counts_bounds_witness :
  episode_counts "S9" null_season_db = ok (0, 0).
Proof.
  destruct (@episode_counts_bounds null_season_db null_season_episodes "S9"
              eq_refl)
    as (n & m & Hq & _ & _ & Hzero).
  destruct Hzero as [-> ->]; [|exact Hq].
  intros e [<- | [<- | [<- | [<- | []]]]]; discriminate.
Defined.

(** X9. For a show whose title no other show shares, the season count that
    Query 2 lists under its title is the season count that the lookup gives
    for its code. *)
Theorem query2_count_is_lookup_count (d : db) (ts : Sql.table Shows.row)
    (te : Sql.table Episodes.row) (s : Shows.row) (n : nat)
    (r2 : list (string * nat))
    (Hshows : shows d = Some ts) (Hepisodes : episodes d = Some te)
    (Hin : In s (Sql.rows ts))
    (Hunique : forall s', In s' (Sql.rows ts) ->
                 Shows.Title s' = Shows.Title s -> Shows.Code s' = Shows.Code s)
    (Hquery : query2 d = ok r2)
    (Hlisted : In (Shows.Title s, n) r2) :
  exists ep_count, episode_counts (Shows.Code s) d = ok (ep_count, n).
Proof.
  rewrite (episode_counts_lookup d (Shows.Code s) Hepisodes).
  unfold lookup_counts. eexists. do 2 f_equal.
  unfold query2 in Hquery. rewrite Hshows, Hepisodes in Hquery.
  injection Hquery as <-.
  apply order_by_In, filter_In in Hlisted. destruct Hlisted as [Hgroup Hn].
  simpl in Hn. apply Nat.ltb_lt in Hn.
  apply in_group_by_title in Hgroup. destruct Hgroup as (l & -> & Hnodup & Hl).
  destruct (count_distinct_spec
              (map Episodes.Season (episodes_of (Shows.Code s) te)))
    as (l' & -> & Hnodup' & Hl').
  apply Permutation_length, NoDup_Permutation; try assumption.
  intros z. rewrite Hl, Hl', in_map_iff. split.
  - intros (e & Hz & He). destruct l as [|z0 l]; [simpl in Hn; lia|].
    destruct (proj1 (Hl z0) (or_introl eq_refl))
      as (s' & e' & Hs' & Hlow & Ht & He' & _).
    exists s', e. rewrite (Hunique s' Hs' Ht). auto.
  - intros (s' & e & Hs' & _ & Ht & He & Hz).
    exists e. rewrite (Hunique s' Hs' Ht) in He. auto.
Qed.

Example scenario_files_loaded :
  disk (main example_float scenario_files blank_world) = scenario_db.
Proof. reflexivity. Qed.

Lemma query2_count_is_lookup_count_witness :
  exists ep_count, episode_counts "S1" scenario_db = ok (ep_count, 2).
Proof.
  apply (@query2_count_is_lookup_count scenario_db scenario_shows
           scenario_episodes
           (show_row "S1" "Alpha" (Some (Py.Fin 4)) (Some 1000%Z) (Some 2%Z))
           2 [("Alpha"%string, 2)] eq_refl eq_refl (or_introl eq_refl)).
  - intros s' [<- | [<- | []]]; [reflexivity | discriminate].
  - reflexivity.
  - left. reflexivity.
Defined.

(** * Loader: when the load goes through *)

Lemma map_result_length (A B : Type) (f : A -> result B) (l : list A)
    (bs : list B) :
  map_result f l = ok bs -> List.length bs = List.length l.
Proof.
  intros H. apply map_result_ok in H. symmetry. eapply Forall2_length, H.
Qed.

Lemma map_result_split (A B C : Type) (f : A -> result B) (g : B -> result C)
    (l : list A) (cs : list C) :
  map_result (fun a => rbind (f a) g) l = ok cs ->
  exists bs, map_result f l = ok bs /\ map_result g bs = ok cs.
Proof.
  revert cs. induction l as [|a l IH]; simpl; intros cs H.
  - injection H as <-. now exists [].
  - destruct (f a) as [e|b]; simpl in H; [discriminate|].
    destruct (g b) as [e|c] eqn:Hc; simpl in H; [discriminate|].
    destruct (map_result (fun a => rbind (f a) g) l) as [e|cs'] eqn:Hcs;
      simpl in H; [discriminate|].
    injection H as <-. destruct (IH cs' eq_refl) as (bs & -> & Hg).
    exists (b :: bs). simpl. now rewrite Hc, Hg.
Qed.

(** The INSERT of the show load goes through for tuples that can be bound
    and whose codes are pairwise different and new to the table. *)
Lemma insert_shows_complete (to_db : list show_params) :
  forall bound d t,
    shows d = Some t -> Sql.tbl_schema t = Shows.schema ->
    map_result bind_show to_db = ok bound ->
    NoDup (map tuple_code to_db) ->
    (forall c, In c (map tuple_code to_db) ->
               ~ In c (map Shows.Code (Sql.rows t))) ->
    fold_steps insert_into_shows to_db d =
      ok {| shows := Some {| Sql.tbl_schema := Shows.schema;
                             Sql.rows := Sql.rows t ++ bound |};
            episodes := episodes d |}.
Proof.
  induction to_db as [|p ps IH]; intros bound d t Ht Hschema Hbound Hnodup Hnew;
    simpl in *.
  - injection Hbound as <-. rewrite app_nil_r.
    destruct d as [s e]. simpl in *. subst s. destruct t. simpl in *. now subst.
  - destruct (bind_show p) as [e|r] eqn:Hr; simpl in Hbound; [discriminate|].
    destruct (map_result bind_show ps) as [e|bound'] eqn:Hps; simpl in Hbound;
      [discriminate|].
    injection Hbound as <-.
    unfold insert_into_shows at 1. rewrite Ht, Hr. simpl.
    unfold Sql.insert.
    pose proof (bind_show_code p Hr) as Hcode.
    destruct (Sql.violates_primary_key Shows.column t r) eqn:Hviol.
    + exfalso. apply (shows_violation t r Hschema) in Hviol.
      apply (Hnew (tuple_code p)); [now left | now rewrite <- Hcode].
    + simpl. inversion Hnodup as [|? ? Hnotin Hrest]; subst.
      rewrite (IH bound' {| shows := Some (Sql.append_row t r);
                            episodes := episodes d |}
                 (Sql.append_row t r) eq_refl Hschema eq_refl Hrest).
      * simpl. now rewrite <- app_assoc.
      * intros c Hc. simpl. rewrite map_app, in_app_iff. simpl.
        intros [Hin | [Heq | []]].
        -- apply (Hnew c); auto.
        -- apply Hnotin. congruence.
Qed.

(** The INSERT OR IGNORE of the episode load goes through for tuples that
    can be bound. *)
Lemma insert_episodes_complete (to_db : list episode_params) :
  forall bound d t,
    episodes d = Some t -> Sql.tbl_schema t = Episodes.schema ->
    map_result bind_episode to_db = ok bound ->
    fold_steps insert_or_ignore_into_episodes to_db d =
      ok {| shows := shows d;
            episodes := Some {| Sql.tbl_schema := Episodes.schema;
                                Sql.rows := fold_left ignore_step bound
                                              (Sql.rows t) |} |}.
Proof.
  induction to_db as [|p ps IH]; intros bound d t Ht Hschema Hbound; simpl in *.
  - injection Hbound as <-. simpl.
    destruct d as [s e]. simpl in *. subst e. destruct t. simpl in *. now subst.
  - destruct (bind_episode p) as [e|r] eqn:Hr; simpl in Hbound; [discriminate|].
    destruct (map_result bind_episode ps) as [e|bound'] eqn:Hps; simpl in Hbound;
      [discriminate|].
    injection Hbound as <-.
    unfold insert_or_ignore_into_episodes at 1. rewrite Ht, Hr. simpl.
    rewrite (IH bound'
               {| shows := shows d;
                  episodes := Some (Sql.insert_or_ignore Episodes.column t r) |}
               (Sql.insert_or_ignore Episodes.column t r)
               eq_refl); [| |reflexivity].
    + simpl. do 4 f_equal. unfold Sql.insert_or_ignore, ignore_step.
      rewrite (episodes_violation t r Hschema).
      now destruct (key_complete r && _).
    + unfold Sql.insert_or_ignore. now destruct (Sql.violates_primary_key _ _ _).
Qed.

(** [load] on the freshly created tables returns exactly for the sources
    that are [loadable], and returns the rows of the sources. *)
Lemma load_fresh_ok (py_float : string -> option Py.float) (fs : files) (d' : db) :
  load py_float fs fresh_db = inr d' <->
  exists show_rows episode_rows,
    loadable py_float fs show_rows episode_rows
    /\ d' = loaded_db show_rows episode_rows.
Proof.
  unfold load, load_shows, load_episodes, loadable, show_row_of, episode_row_of.
  split.
  - destruct (show_csv fs) as [sreader|]; simpl; [|discriminate].
    destruct (map_result (show_tuple py_float) sreader) as [e|stuples] eqn:Hst;
      simpl; [discriminate|].
    destruct (fold_steps insert_into_shows stuples fresh_db) as [e|d1] eqn:Hfold;
      simpl; [discriminate|].
    destruct (insert_shows_ok stuples fresh_db eq_refl eq_refl Hfold)
      as (Hnodup & _ & sbound & Hsbound & ->).
    destruct (episode_csv fs) as [ereader|]; simpl; [|discriminate].
    destruct (map_result (episode_tuple py_float) ereader) as [e|etuples] eqn:Het;
      simpl; [discriminate|].
    intros Hfold2.
    match type of Hfold2 with
    | fold_steps _ _ ?d1 = _ =>
        destruct (@bind_episode_ok_fold etuples d1 d' empty_episodes
                    eq_refl eq_refl Hfold2) as (ebound & Hebound & ->)
    end.
    exists sbound, ebound. split.
    + exists sreader, ereader. repeat split.
      * eapply map_result_compose; eassumption.
      * now rewrite <- (show_tuples_codes _ _ Hst).
      * eapply map_result_compose; eassumption.
    + unfold loaded_db. simpl.
      now rewrite (fold_ignore_first_occurrences ebound [] []).
  - intros (sbound & ebound & (sreader & ereader & -> & -> & Hs & Hnodup & He)
            & ->).
    apply map_result_split in Hs. destruct Hs as (stuples & Hst & Hsbound).
    apply map_result_split in He. destruct He as (etuples & Het & Hebound).
    simpl. rewrite Hst. simpl.
    rewrite (@insert_shows_complete stuples sbound fresh_db empty_shows
               eq_refl eq_refl Hsbound).
    + simpl. rewrite Het. simpl.
      match goal with
      | |- context [fold_steps insert_or_ignore_into_episodes _ ?d1] =>
          rewrite (@insert_episodes_complete etuples ebound d1 empty_episodes
                     eq_refl eq_refl Hebound)
      end.
      unfold loaded_db. simpl.
      now rewrite (fold_ignore_first_occurrences ebound [] []).
    + now rewrite (show_tuples_codes _ _ Hst).
    + intros c _ [].
Qed.

(** A load that returns has committed what [load] computes and printed the
    number of show rows and the line of the episode load. *)
Lemma ingest_data_returns (py_float : string -> option Py.float) (fs : files)
    (w : world) (d' : db) (show_reader : list ShowCsv.row) :
  load py_float fs (disk w) = inr d' ->
  show_csv fs = Some show_reader ->
  ingest_data py_float fs w =
    (ok tt, {| disk := d'; pending := None;
               stdout := stdout w ++ [IngestedLine (List.length show_reader);
                                      episodes_ingested_line] |}).
Proof.
  intros Hload Hfile.
  unfold load, load_shows, load_episodes in Hload.
  rewrite Hfile in Hload. simpl in Hload.
  destruct (map_result (show_tuple py_float) show_reader) as [e|stuples] eqn:Hst;
    simpl in Hload; [discriminate|].
  destruct (shows_exists (disk w)) as [e|[]] eqn:Hex1; simpl in Hload;
    [discriminate|].
  destruct (fold_steps insert_into_shows stuples (disk w)) as [e|d1] eqn:Hf1;
    simpl in Hload; [discriminate|].
  destruct (episode_csv fs) as [ereader|] eqn:Hefile; simpl in Hload;
    [|discriminate].
  destruct (map_result (episode_tuple py_float) ereader) as [e|etuples] eqn:Het;
    simpl in Hload; [discriminate|].
  destruct (episodes_exists d1) as [e|[]] eqn:Hex2; simpl in Hload;
    [discriminate|].
  unfold ingest_data.
  unfold bind at 1. unfold connect. unfold ok at 1. cbv beta iota.
  unfold bind at 1. unfold read_csv. rewrite Hfile. unfold ret, ok at 1.
  cbv beta iota.
  unfold bind at 1. unfold lift at 1. rewrite Hst. cbv beta iota.
  unfold bind at 1.
  pose proof (executemany_fold shows_exists insert_into_shows stuples
                (with_pending None w)) as H1.
  change (view (with_pending None w)) with (disk w) in H1.
  rewrite Hex1, Hf1 in H1. rewrite H1. clear H1. unfold ok at 1.
  cbv beta iota.
  unfold bind at 1. unfold print at 1. unfold ok at 1. cbv beta iota.
  unfold bind at 1. rewrite Hefile. unfold ret, ok at 1. cbv beta iota.
  unfold bind at 1. unfold lift at 1. rewrite Het. cbv beta iota.
  unfold bind at 1.
  match goal with
  | |- context [executemany _ _ _ ?w1] =>
      pose proof (executemany_fold episodes_exists insert_or_ignore_into_episodes
                    etuples w1) as H2;
      change (view w1) with d1 in H2
  end.
  rewrite Hex2, Hload in H2. rewrite H2. clear H2. unfold ok at 1.
  cbv beta iota.
  unfold bind, print, commit, close, with_pending, view, ok. simpl.
  rewrite (map_result_length _ _ Hst), <- app_assoc. reflexivity.
Qed.

(** The run of the main block when the load returns: the store is what the
    load committed, and the output is the line of the schema initializer,
    the two lines of the load, and the four sections of the reports. *)
Lemma main_when_load_returns (py_float : string -> option Py.float)
    (fs : files) (w : world)
    (show_rows : list Shows.row) (episode_rows : list Episodes.row) :
  loadable py_float fs show_rows episode_rows ->
  exists r1 r2 r3 r4,
    query1 (loaded_db show_rows episode_rows) = ok r1
    /\ query2 (loaded_db show_rows episode_rows) = ok r2
    /\ query3 (loaded_db show_rows episode_rows) = ok r3
    /\ query4 (loaded_db show_rows episode_rows) = ok r4
    /\ main py_float fs w =
         {| disk := loaded_db show_rows episode_rows; pending := None;
            stdout := stdout w ++
              created_line :: IngestedLine (List.length show_rows)
              :: episodes_ingested_line :: reports_banner
              :: report1_lines r1 ++ report2_lines r2
                 ++ report3_lines
                      {| Sql.tbl_schema := Episodes.schema;
                         Sql.rows := first_occurrences [] episode_rows |} r3
                 ++ report4_lines
                      {| Sql.tbl_schema := Episodes.schema;
                         Sql.rows := first_occurrences [] episode_rows |} r4 |}.
Proof.
  intros Hloadable.
  assert (load py_float fs fresh_db = inr (loaded_db show_rows episode_rows))
    as Hload.
  { apply load_fresh_ok. now exists show_rows, episode_rows. }
  destruct Hloadable as (sreader & ereader & Hsfile & _ & Hs & _ & _).
  apply map_result_length in Hs.
  set (w2 := {| disk := loaded_db show_rows episode_rows; pending := None;
                stdout := (stdout w ++ [created_line]) ++
                            [IngestedLine (List.length sreader);
                             episodes_ingested_line] |}).
  destruct (@run_reports_run w2 _ _ eq_refl eq_refl)
    as (r1 & r2 & r3 & r4 & H1 & H2 & H3 & H4 & Hrun).
  exists r1, r2, r3, r4. repeat (split; [assumption|]).
  unfold main, pipeline. unfold bind at 1.
  rewrite create_database_and_tables_run. unfold ok at 1. cbv beta iota.
  unfold bind at 1.
  rewrite (@ingest_data_returns py_float fs
             {| disk := fresh_db; pending := None;
                stdout := stdout w ++ [created_line] |}
             _ sreader Hload Hsfile).
  unfold ok at 1. cbv beta iota.
  match goal with
  | |- context [run_reports ?x] => change x with w2
  end.
  rewrite Hrun.
  unfold with_pending, w2. cbn [disk pending stdout].
  rewrite Hs, <- !app_assoc. reflexivity.
Qed.

(** * Loader: what a run prints *)

Ltac stopped_before_count w :=
  exists (with_pending None w); rewrite app_nil_r; repeat split.

Ltac stopped_after_count :=
  eexists; repeat split.

(** The line [ingest_data] prints after the show load carries the number of
    rows of the show source. *)
Lemma ingest_data_lines (py_float : string -> option Py.float) (fs : files)
    (w : world) :
  exists w',
    ingest_data py_float fs w = (rmap (fun _ => tt) (load py_float fs (disk w)), w')
    /\ disk w' = match load py_float fs (disk w) with
                 | inr d' => d'
                 | inl _ => disk w
                 end
    /\ stdout w' = stdout w ++ load_lines py_float fs (disk w) (show_count fs).
Proof.
  unfold ingest_data, load, load_lines, load_shows, load_episodes, show_count.
  unfold bind at 1. unfold connect.
  unfold bind at 1. unfold read_csv, opened.
  destruct (show_csv fs) as [srows|]; simpl; [|stopped_before_count w].
  unfold bind at 1. unfold lift at 1.
  destruct (map_result (show_tuple py_float) srows) as [e|stuples] eqn:Hst;
    simpl; [stopped_before_count w|].
  unfold bind at 1.
  pose proof (executemany_fold shows_exists insert_into_shows stuples
                (with_pending None w)) as H1.
  change (view (with_pending None w)) with (disk w) in H1.
  destruct (shows_exists (disk w)) as [e|[]]; simpl;
    [rewrite H1; stopped_before_count w|].
  destruct (fold_steps insert_into_shows stuples (disk w)) as [e|d1]; simpl.
  { destruct H1 as (d'' & ->). eexists. rewrite app_nil_r. repeat split. }
  rewrite H1. clear H1.
  rewrite (map_result_length _ _ Hst).
  unfold bind at 1. unfold print at 1. simpl.
  unfold bind at 1.
  destruct (episode_csv fs) as [erows|]; simpl; [|stopped_after_count].
  unfold bind at 1. unfold lift at 1.
  destruct (map_result (episode_tuple py_float) erows) as [e|etuples]; simpl;
    [stopped_after_count|].
  unfold bind at 1.
  match goal with
  | |- context [executemany _ _ _ ?w1] =>
      pose proof (executemany_fold episodes_exists insert_or_ignore_into_episodes
                    etuples w1) as H2;
      change (view w1) with d1 in H2
  end.
  destruct (episodes_exists d1) as [e|[]]; simpl;
    [rewrite H2; stopped_after_count|].
  destruct (fold_steps insert_or_ignore_into_episodes etuples d1) as [e|d2]; simpl.
  { destruct H2 as (d'' & ->). stopped_after_count. }
  rewrite H2. clear H2.
  eexists. split; [reflexivity|]. simpl. split; [reflexivity|].
  rewrite <- app_assoc. reflexivity.
Qed.

(** The run of the main block when the load raises, with the number it has
    printed. *)
Lemma main_when_load_raises (py_float : string -> option Py.float) (fs : files)
    (w : world) (e : exn) :
  load py_float fs fresh_db = inl e ->
  main py_float fs w =
    {| disk := fresh_db; pending := None;
       stdout := stdout w ++ created_line :: failed_run_lines py_float fs e |}.
Proof.
  intros Hload. unfold main, pipeline. unfold bind at 1.
  rewrite create_database_and_tables_run. unfold ok at 1. cbv beta iota.
  unfold bind at 1.
  match goal with
  | |- context [ingest_data _ _ ?w1] =>
      destruct (ingest_data_lines py_float fs w1) as (w' & -> & Hdisk & Hout)
  end.
  simpl in Hdisk, Hout. rewrite Hload in *. simpl.
  destruct w' as [dk pd out]. simpl in Hdisk, Hout. subst dk out.
  rewrite Hload. simpl. unfold failed_run_lines, handler_lines.
  destruct (is_FileNotFoundError e); unfold bind, print, with_pending; simpl;
    rewrite <- !app_assoc; reflexivity.
Qed.

(** * Loader: the sources that load, and what they leave *)

(** X10. On the freshly created tables the load returns exactly for the sources
    that are [loadable]: both files present, every row converting and
    fitting, no show code repeated.  It then commits the show rows in file
    order and the episode rows that [INSERT OR IGNORE] keeps, leaves no
    transaction open, and has printed the number of show rows and the line
    of the episode load. *)
Theorem ingest_data_returns_iff_loadable (py_float : string -> option Py.float)
    (fs : files) (w w' : world) (Hfresh : disk w = fresh_db) :
  ingest_data py_float fs w = (ok tt, w') <->
  exists show_rows episode_rows,
    loadable py_float fs show_rows episode_rows
    /\ w' = {| disk := loaded_db show_rows episode_rows; pending := None;
               stdout := stdout w ++ [IngestedLine (List.length show_rows);
                                      episodes_ingested_line] |}.
Proof.
  split.
  - intros Hok.
    destruct (ingest_data_load py_float fs w) as (w'' & n & Hrun & _).
    destruct (load py_float fs (disk w)) as [e|d'] eqn:Hload;
      [rewrite Hrun in Hok; discriminate|]. clear Hrun w'' n.
    pose proof Hload as Hfresh_load. rewrite Hfresh in Hfresh_load.
    destruct (proj1 (load_fresh_ok py_float fs d') Hfresh_load)
      as (show_rows & episode_rows & Hloadable & ->).
    exists show_rows, episode_rows. split; [exact Hloadable|].
    destruct Hloadable as (sreader & ereader & Hsfile & _ & Hs & _).
    rewrite (@ingest_data_returns py_float fs w _ sreader Hload Hsfile) in Hok.
    injection Hok as <-. now rewrite (map_result_length _ _ Hs).
  - intros (show_rows & episode_rows & Hloadable & ->).
    assert (load py_float fs (disk w) = inr (loaded_db show_rows episode_rows))
      as Hload.
    { rewrite Hfresh. apply load_fresh_ok. now exists show_rows, episode_rows. }
    destruct Hloadable as (sreader & ereader & Hsfile & _ & Hs & _).
    rewrite (@ingest_data_returns py_float fs w _ sreader Hload Hsfile).
    now rewrite (map_result_length _ _ Hs).
Qed.

Lemma ingest_data_returns_iff_loadable_witness :
  ingest_data example_float scenario_files initialized_world =
    (ok tt, {| disk := scenario_db; pending := None;
               stdout := [created_line; IngestedLine 2; episodes_ingested_line] |}).
Proof.
  apply (@ingest_data_returns_iff_loadable example_float scenario_files
           initialized_world _ eq_refl).
  exists (Sql.rows scenario_shows), (Sql.rows scenario_episodes).
  split; [|reflexivity].
  do 2 eexists. repeat split.
  repeat constructor; simpl; intuition discriminate.
Defined.

Lemma show_row_of_stores (py_float : string -> option Py.float)
    (row : ShowCsv.row) (r : Shows.row) :
  show_row_of py_float row = ok r -> stores py_float row r.
Proof.
  unfold show_row_of, show_tuple, stores.
  destruct (rating_count_cleaned (ShowCsv.Rating_Count row)) as [e|rc];
    simpl; [discriminate|].
  destruct (float_if_nonempty py_float (ShowCsv.Rating row)) as [e|rt];
    simpl; [discriminate|].
  destruct (int_if_nonempty (ShowCsv.Rank row)) as [e|rk];
    simpl; [discriminate|].
  unfold Sql.bind_optional_int, Sql.bind_int, rmap.
  destruct rc as [rc|], rk as [rk|]; simpl;
    repeat match goal with
           | |- context [if ?c then _ else _] => destruct c; simpl
           end;
    try discriminate; intros [= <-]; simpl; auto.
Qed.

(** X11. After a load that returned, the Show table holds one row per row of the
    show source, in file order: the code and the title as they are in the
    file, the rating, rating count and rank as their conversions give them
    (null for an empty field); and no two rows of the table have the same
    code. *)
Theorem loaded_show_table_follows_source (py_float : string -> option Py.float)
    (fs : files) (reader : list ShowCsv.row) (w w' : world)
    (Hfile : show_csv fs = Some reader)
    (Hfresh : disk w = fresh_db)
    (Hok : ingest_data py_float fs w = (ok tt, w')) :
  exists ts,
    shows (disk w') = Some ts
    /\ Forall2 (stores py_float) reader (Sql.rows ts)
    /\ List.length (Sql.rows ts) = List.length reader
    /\ NoDup (map Shows.Code (Sql.rows ts)).
Proof.
  destruct (ingest_data_load py_float fs w) as (w'' & n & Hrun & Hdisk & _).
  rewrite Hrun in Hok. rewrite Hfresh in *.
  destruct (load py_float fs fresh_db) as [e|d'] eqn:Hload; simpl in Hok;
    [discriminate|].
  injection Hok as ->. rewrite Hdisk.
  destruct (proj1 (load_fresh_ok py_float fs d') Hload)
    as (show_rows & episode_rows & Hloadable & ->).
  destruct Hloadable as (sreader & ereader & Hsfile & _ & Hs & Hnodup & _).
  rewrite Hfile in Hsfile. injection Hsfile as <-.
  eexists. split; [reflexivity|]. simpl.
  pose proof (map_result_ok _ _ Hs) as Hall.
  assert (Forall2 (stores py_float) reader show_rows) as Hstores.
  { eapply Forall2_impl; [|exact Hall]. apply show_row_of_stores. }
  split; [exact Hstores|]. split; [symmetry; eapply Forall2_length, Hall|].
  replace (map Shows.Code show_rows) with (map ShowCsv.Code reader);
    [exact Hnodup|].
  clear -Hstores. induction Hstores as [|row r l l' Hr _ IH]; simpl;
    [reflexivity|].
  destruct Hr as [-> _]. now rewrite IH.
Qed.

Lemma loaded_show_table_follows_source_witness :
  exists ts,
    shows scenario_db = Some ts
    /\ Forall2 (stores example_float)
         [show_csv_row "S1" "Alpha" "4.0" "1,000" "2";
          show_csv_row "S2" "Beta" "6.0" "500" "1"]
         (Sql.rows ts).
Proof.
  destruct (@loaded_show_table_follows_source example_float scenario_files _
              initialized_world
              {| disk := scenario_db; pending := None;
                 stdout := [created_line; IngestedLine 2; episodes_ingested_line] |}
              eq_refl eq_refl eq_refl)
    as (ts & Hts & Hstores & _).
  exists ts. now split.
Defined.

(** X12. After a load that returned, the Episode table holds every key of the
    episode source, also for a code that no show has, and holds no key
    without a null twice. *)
Theorem loaded_episode_table_keys (py_float : string -> option Py.float)
    (fs : files) (reader : list EpisodeCsv.row) (w w' : world)
    (Hfile : episode_csv fs = Some reader)
    (Hfresh : disk w = fresh_db)
    (Hok : ingest_data py_float fs w = (ok tt, w')) :
  exists parsed te,
    map_result (episode_row_of py_float) reader = ok parsed
    /\ episodes (disk w') = Some te
    /\ (forall r, In r (Sql.rows te) -> In r parsed)
    /\ (forall r, In r parsed ->
          exists r', In r' (Sql.rows te) /\ episode_key r' = episode_key r)
    /\ NoDup (map episode_key (filter key_complete (Sql.rows te))).
Proof.
  destruct (@ingest_data_episode_rows py_float fs reader w w' Hfile Hfresh Hok)
    as (parsed & Hparsed & Htable).
  exists parsed. eexists. split; [exact Hparsed|]. split; [exact Htable|].
  simpl.
  assert (forall rows earlier r,
            In r (first_occurrences earlier rows) -> In r rows) as Hsub.
  { induction rows as [|x rows IH]; intros earlier r; simpl; [tauto|].
    destruct (key_complete x && existsb (has_key (episode_key x)) earlier);
      simpl; intros H.
    - right. eapply IH, H.
    - destruct H as [H|H]; [now left | right; eapply IH, H]. }
  split; [apply Hsub|]. split; [|apply first_occurrences_keys].
  intros r Hr. destruct (key_complete r) eqn:Hc.
  - assert (In (episode_key r)
              (map episode_key (filter key_complete (first_occurrences [] parsed))))
      as Hin.
    { apply first_occurrences_keys. split; [|reflexivity].
      apply in_map, filter_In. auto. }
    apply in_map_iff in Hin. destruct Hin as (r' & Hkey & Hr').
    apply filter_In in Hr'. exists r'. tauto.
  - exists r. split; [|reflexivity].
    assert (In r (filter key_incomplete (first_occurrences [] parsed))) as Hin.
    { rewrite first_occurrences_incomplete. apply filter_In.
      split; [exact Hr|]. unfold key_incomplete. now rewrite Hc. }
    now apply filter_In in Hin.
Qed.

Lemma loaded_episode_table_keys_witness :
  exists te,
    episodes (disk (main example_float repeated_key_files blank_world)) = Some te
    /\ NoDup (map episode_key (filter key_complete (Sql.rows te))).
Proof.
  destruct (@loaded_episode_table_keys example_float repeated_key_files _
              initialized_world _ eq_refl eq_refl eq_refl)
    as (parsed & te & _ & Hte & _ & _ & Hnodup).
  exists te. split; [exact Hte | exact Hnodup].
Defined.

(** * Loader: the exceptions *)

Lemma int_error (s : string) (e : exn) : Py.int s = inl e -> e = ValueError.
Proof.
  unfold Py.int.
  repeat match goal with
         | |- context [match ?x with _ => _ end] => destruct x
         end; unfold raise, ok; congruence.
Qed.

Lemma episode_tuple_error (py_float : string -> option Py.float)
    (reader : list EpisodeCsv.row) (e : exn) :
  map_result (episode_tuple py_float) reader = inl e -> e = ValueError.
Proof.
  induction reader as [|row reader IH]; simpl; [discriminate|].
  destruct (episode_tuple py_float row) as [e'|p] eqn:Hp; simpl.
  - intros [= <-]. revert Hp. unfold episode_tuple, int_if_isdigit,
      float_if_nonempty, float, rmap.
    repeat match goal with
           | |- context [Py.int ?s] =>
               let H := fresh "H" in
               destruct (Py.int s) eqn:H; [apply int_error in H; subst|]; simpl
           | |- context [match ?x with _ => _ end] => destruct x; simpl
           end; unfold raise, ok; congruence.
  - destruct (map_result (episode_tuple py_float) reader) as [e'|ps]; simpl.
    + intros [= <-]. now apply IH.
    + discriminate.
Qed.

Lemma bind_episode_error (p : episode_params) (e : exn) :
  bind_episode p = inl e -> e = OverflowError.
Proof.
  destruct p as [[[[id_code code] season] episode] rating].
  unfold bind_episode, Sql.bind_optional_int, Sql.bind_int, rmap.
  repeat match goal with
         | |- context [match ?x with _ => _ end] => destruct x; simpl
         | |- context [if ?x then _ else _] => destruct x; simpl
         end; unfold raise, ok; congruence.
Qed.

(** The INSERT OR IGNORE of the episode load raises only for an integer
    that does not fit; it never raises a constraint violation. *)
Lemma insert_episodes_error (to_db : list episode_params) :
  forall d t e,
    episodes d = Some t ->
    fold_steps insert_or_ignore_into_episodes to_db d = inl e ->
    e = OverflowError.
Proof.
  induction to_db as [|p ps IH]; intros d t e Ht Hfold; simpl in *;
    [discriminate|].
  unfold insert_or_ignore_into_episodes at 1 in Hfold. rewrite Ht in Hfold.
  destruct (bind_episode p) as [e'|r] eqn:Hbind; simpl in Hfold.
  - injection Hfold as <-. now apply bind_episode_error in Hbind.
  - eapply IH; [|exact Hfold]. reflexivity.
Qed.

(** X13. A load on the freshly created tables, of sources whose rows carry
    every named column, raises nothing but: the missing file error for one
    of the two files, [ValueError] for a field that does not convert,
    [OverflowError] for an integer that does not fit 64 bits, and the
    violation of the primary key of [shows].  The episode load in particular
    never raises a constraint violation. *)
Theorem load_raises_only (py_float : string -> option Py.float) (fs : files)
    (w w' : world) (e : exn)
    (Hfresh : disk w = fresh_db)
    (Hraise : ingest_data py_float fs w = (inl e, w')) :
  load_exception e
  /\ (forall d1, load_shows py_float fs fresh_db = inr d1 ->
        e = FileNotFoundError "all-episode-ratings.csv"
        \/ e = ValueError \/ e = OverflowError).
Proof.
  destruct (ingest_data_load py_float fs w) as (w'' & n & Hrun & _).
  rewrite Hrun in Hraise. rewrite Hfresh in Hraise. clear Hrun.
  destruct (load py_float fs fresh_db) as [e'|d'] eqn:Hload; simpl in Hraise;
    [|discriminate].
  injection Hraise as -> _.
  unfold load in Hload.
  assert (forall d1, episodes d1 = Some empty_episodes ->
            load_episodes py_float fs d1 = inl e ->
            e = FileNotFoundError "all-episode-ratings.csv"
            \/ e = ValueError \/ e = OverflowError) as Hepisodes.
  { intros d1 Hd1. unfold load_episodes, opened.
    destruct (episode_csv fs) as [ereader|]; simpl; [|intros [= <-]; auto].
    destruct (map_result (episode_tuple py_float) ereader) as [e2|etuples] eqn:Het;
      simpl.
    - intros [= <-]. apply episode_tuple_error in Het. auto.
    - unfold episodes_exists. rewrite Hd1. simpl. intros Hfold.
      apply (insert_episodes_error etuples d1 Hd1) in Hfold. auto. }
  destruct (load_shows py_float fs fresh_db) as [e1|d1] eqn:Hshows;
    simpl in Hload.
  - injection Hload as ->. split; [|discriminate].
    unfold load_shows, opened in Hshows. unfold load_exception.
    destruct (show_csv fs) as [sreader|]; simpl in Hshows;
      [|injection Hshows as <-; auto].
    destruct (map_result (show_tuple py_float) sreader) as [e2|stuples] eqn:Hst;
      simpl in Hshows.
    + injection Hshows as <-. apply show_tuple_error in Hst. auto.
    + destruct (insert_shows_error stuples fresh_db eq_refl Hshows)
        as [[-> | ->] _]; auto 6.
  - assert (episodes d1 = Some empty_episodes) as Hd1.
    { unfold load_shows in Hshows.
      destruct (opened _ (show_csv fs)) as [e2|sreader]; simpl in Hshows;
        [discriminate|].
      destruct (map_result (show_tuple py_float) sreader) as [e2|to_db];
        simpl in Hshows; [discriminate|].
      destruct (insert_shows_ok to_db fresh_db eq_refl eq_refl Hshows)
        as (_ & _ & bound & _ & ->). reflexivity. }
    pose proof (Hepisodes d1 Hd1 Hload) as H. split.
    + unfold load_exception. destruct H as [-> | [-> | ->]]; auto 6.
    + intros d1' [= <-]. exact H.
Qed.

Lemma load_raises_only_witness :
  fst (ingest_data example_float overflow_files initialized_world)
    = inl OverflowError
  /\ load_exception OverflowError.
Proof.
  split; [reflexivity|].
  destruct (@load_raises_only example_float overflow_files initialized_world
              (with_pending
                 (Some {| shows := Some {| Sql.tbl_schema := Shows.schema;
                                           Sql.rows := [show_row "S1" "Alpha"
                                                          (Some (Py.Fin 4))
                                                          (Some 1000%Z) (Some 2%Z)] |};
                          episodes := Some {| Sql.tbl_schema := Episodes.schema;
                                              Sql.rows := [episode_row "e1" "S1"
                                                             (Some 1%Z) (Some 1%Z)
                                                             (Some (Py.Fin 4))] |} |})
                 {| disk := fresh_db; pending := None;
                    stdout := [created_line; IngestedLine 1] |})
              OverflowError eq_refl eq_refl)
    as [H _].
  exact H.
Defined.

(** * Main block: the runs that stop *)

(** X14. When the show source is missing the run prints, after the line of the
    schema initializer, the two lines of the missing-file handler, runs no
    report, and leaves both tables empty. *)
Theorem missing_show_file_stops_run (py_float : string -> option Py.float)
    (fs : files) (w : world) (Hmissing : show_csv fs = None) :
  main py_float fs w =
    {| disk := fresh_db; pending := None;
       stdout := stdout w ++
         [created_line;
          FileNotFoundLine (FileNotFoundError "all-series-ep-average.csv");
          Line "Please make sure your CSV files are in the same folder as the script."] |}.
Proof.
  assert (load py_float fs fresh_db
          = inl (FileNotFoundError "all-series-ep-average.csv")) as Hload.
  { unfold load, load_shows. now rewrite Hmissing. }
  rewrite (main_when_load_raises py_float fs w Hload).
  unfold failed_run_lines, load_lines, load_shows. now rewrite Hmissing.
Qed.

Lemma missing_show_file_stops_run_witness :
  disk (main example_float {| show_csv := None; episode_csv := Some [] |}
          blank_world) = fresh_db.
Proof.
  now rewrite (@missing_show_file_stops_run example_float
                 {| show_csv := None; episode_csv := Some [] |}
                 blank_world eq_refl).
Defined.

Lemma load_shows_fresh (py_float : string -> option Py.float) (fs : files)
    (reader : list ShowCsv.row) (show_rows : list Shows.row) :
  show_csv fs = Some reader ->
  map_result (show_row_of py_float) reader = ok show_rows ->
  NoDup (map ShowCsv.Code reader) ->
  load_shows py_float fs fresh_db =
    inr {| shows := Some {| Sql.tbl_schema := Shows.schema;
                            Sql.rows := show_rows |};
           episodes := Some empty_episodes |}.
Proof.
  intros Hfile Hrows Hnodup. unfold load_shows. rewrite Hfile. simpl.
  apply map_result_split in Hrows. destruct Hrows as (stuples & Hst & Hbound).
  rewrite Hst. simpl.
  rewrite (@insert_shows_complete stuples show_rows fresh_db empty_shows
             eq_refl eq_refl Hbound).
  - reflexivity.
  - now rewrite (show_tuples_codes _ _ Hst).
  - intros c _ [].
Qed.

(** X15. When the show source loads and the episode source is missing, the run
    prints the number of show rows, then the two lines of the missing-file
    handler, and runs no report; the show rows it had inserted are not
    committed: both tables are left empty. *)
Theorem missing_episode_file_stops_run (py_float : string -> option Py.float)
    (fs : files) (reader : list ShowCsv.row) (show_rows : list Shows.row)
    (w : world)
    (Hfile : show_csv fs = Some reader)
    (Hrows : map_result (show_row_of py_float) reader = ok show_rows)
    (Hnodup : NoDup (map ShowCsv.Code reader))
    (Hmissing : episode_csv fs = None) :
  main py_float fs w =
    {| disk := fresh_db; pending := None;
       stdout := stdout w ++
         [created_line; IngestedLine (List.length reader);
          FileNotFoundLine (FileNotFoundError "all-episode-ratings.csv");
          Line "Please make sure your CSV files are in the same folder as the script."] |}.
Proof.
  pose proof (load_shows_fresh py_float fs Hfile Hrows Hnodup) as Hshows.
  assert (load py_float fs fresh_db
          = inl (FileNotFoundError "all-episode-ratings.csv")) as Hload.
  { unfold load. rewrite Hshows. simpl. unfold load_episodes.
    now rewrite Hmissing. }
  rewrite (main_when_load_raises py_float fs w Hload).
  unfold failed_run_lines, load_lines, show_count. rewrite Hshows, Hfile.
  unfold load_episodes. now rewrite Hmissing.
Qed.

Lemma missing_episode_file_stops_run_witness :
  main example_float
    {| show_csv := Some [show_csv_row "S1" "Alpha" "4.0" "1,000" "2"];
       episode_csv := None |} blank_world =
    {| disk := fresh_db; pending := None;
       stdout :=
         [created_line; IngestedLine 1;
          FileNotFoundLine (FileNotFoundError "all-episode-ratings.csv");
          Line "Please make sure your CSV files are in the same folder as the script."] |}.
Proof.
  apply (@missing_episode_file_stops_run example_float
           {| show_csv := Some [show_csv_row "S1" "Alpha" "4.0" "1,000" "2"];
              episode_csv := None |}
           _ [show_row "S1" "Alpha" (Some (Py.Fin 4)) (Some 1000%Z) (Some 2%Z)]
           blank_world eq_refl eq_refl).
  - repeat constructor. intros [].
  - reflexivity.
Defined.

Lemma map_result_error_at (A B : Type) (f : A -> result B) (l1 l2 : list A)
    (a : A) :
  (exists e, f a = inl e) -> exists e, map_result f (l1 ++ a :: l2) = inl e.
Proof.
  intros (e & He). induction l1 as [|x l1 IH]; simpl.
  - rewrite He. now exists e.
  - destruct (f x) as [e'|b]; simpl; [now exists e'|].
    destruct IH as (e' & ->). now exists e'.
Qed.

(** X16. A show row with a non-empty Rating, Rating Count or Rank that does not
    convert aborts the run with [ValueError] before any row is inserted,
    wherever the row stands in the source and whatever the other rows are:
    the run prints the error after the line of the schema initializer, and
    nothing else. *)
Theorem bad_show_row_aborts_run (py_float : string -> option Py.float)
    (fs : files) (l1 l2 : list ShowCsv.row) (row : ShowCsv.row) (w : world)
    (Hfile : show_csv fs = Some (l1 ++ row :: l2))
    (Hbad : bad_show_row py_float row) :
  main py_float fs w =
    {| disk := fresh_db; pending := None;
       stdout := stdout w ++ [created_line; UnexpectedErrorLine ValueError] |}.
Proof.
  assert (exists e, show_tuple py_float row = inl e) as Hrow.
  { unfold show_tuple.
    destruct Hbad as [(e & ->) | [(e & He) | (e & He)]]; simpl.
    - now exists e.
    - destruct (rating_count_cleaned _); simpl; [eauto|].
      rewrite He. simpl. eauto.
    - destruct (rating_count_cleaned _); simpl; [eauto|].
      destruct (float_if_nonempty _ _); simpl; [eauto|].
      rewrite He. simpl. eauto. }
  destruct (map_result_error_at (show_tuple py_float) l1 l2 row Hrow)
    as (e & Htuples).
  pose proof (show_tuple_error _ _ Htuples) as ->.
  assert (load_shows py_float fs fresh_db = inl ValueError) as Hshows.
  { unfold load_shows. rewrite Hfile. simpl. now rewrite Htuples. }
  assert (load py_float fs fresh_db = inl ValueError) as Hload.
  { unfold load. now rewrite Hshows. }
  rewrite (main_when_load_raises py_float fs w Hload).
  unfold failed_run_lines, load_lines. now rewrite Hshows.
Qed.

Lemma bad_show_row_aborts_run_witness :
  main example_float bad_rank_files blank_world =
    {| disk := fresh_db; pending := None;
       stdout := [created_line; UnexpectedErrorLine ValueError] |}.
Proof.
  apply (@bad_show_row_aborts_run example_float bad_rank_files
           [show_csv_row "S1" "Alpha" "4.0" "1,000" "2"] []
           (show_csv_row "S2" "Beta" "6.0" "500" "first") blank_world eq_refl).
  right. right. exists ValueError. reflexivity.
Defined.

(** X17. An episode row with a field that raises in its conversion aborts the
    run with [ValueError] after the show load: the run prints the number of
    show rows and then the error, runs no report, and commits nothing, the
    inserted show rows included. *)
Theorem bad_episode_row_aborts_run (py_float : string -> option Py.float)
    (fs : files) (reader : list ShowCsv.row) (show_rows : list Shows.row)
    (l1 l2 : list EpisodeCsv.row) (row : EpisodeCsv.row) (w : world)
    (Hfile : show_csv fs = Some reader)
    (Hrows : map_result (show_row_of py_float) reader = ok show_rows)
    (Hnodup : NoDup (map ShowCsv.Code reader))
    (Hefile : episode_csv fs = Some (l1 ++ row :: l2))
    (Hbad : bad_episode_row py_float row) :
  main py_float fs w =
    {| disk := fresh_db; pending := None;
       stdout := stdout w ++
         [created_line; IngestedLine (List.length reader);
          UnexpectedErrorLine ValueError] |}.
Proof.
  pose proof (load_shows_fresh py_float fs Hfile Hrows Hnodup) as Hshows.
  assert (exists e, episode_tuple py_float row = inl e) as Hrow.
  { unfold episode_tuple.
    destruct Hbad as [(e & ->) | [(e & He) | (e & He)]]; simpl.
    - now exists e.
    - destruct (int_if_isdigit (EpisodeCsv.Season row)); simpl; [eauto|].
      rewrite He. simpl. eauto.
    - destruct (int_if_isdigit (EpisodeCsv.Season row)); simpl; [eauto|].
      destruct (int_if_isdigit (EpisodeCsv.Episode row)); simpl; [eauto|].
      rewrite He. simpl. eauto. }
  destruct (map_result_error_at (episode_tuple py_float) l1 l2 row Hrow)
    as (e & Htuples).
  pose proof (episode_tuple_error _ _ Htuples) as ->.
  assert (forall d1, load_episodes py_float fs d1 = inl ValueError) as Hepisodes.
  { intros d1. unfold load_episodes. rewrite Hefile. simpl. now rewrite Htuples. }
  assert (load py_float fs fresh_db = inl ValueError) as Hload.
  { unfold load. rewrite Hshows. simpl. apply Hepisodes. }
  rewrite (main_when_load_raises py_float fs w Hload).
  unfold failed_run_lines, load_lines, show_count.
  now rewrite Hshows, Hepisodes, Hfile.
Qed.

Lemma bad_episode_row_aborts_run_witness :
  main example_float bad_rating_files blank_world =
    {| disk := fresh_db; pending := None;
       stdout := [created_line; IngestedLine 1; UnexpectedErrorLine ValueError] |}.
Proof.
  apply (@bad_episode_row_aborts_run example_float bad_rating_files
           _ [show_row "S1" "Alpha" (Some (Py.Fin 4)) (Some 1000%Z) (Some 2%Z)]
           [episode_csv_row "e1" "S1" "1" "1" "4.0"] []
           (episode_csv_row "e2" "S1" "1" "2" "n/a") blank_world
           eq_refl eq_refl).
  - repeat constructor. intros [].
  - reflexivity.
  - right. right. exists ValueError. reflexivity.
Defined.

(** * Main block: every run starts afresh *)

(** X18. What a run commits and what it prints depend on the two files only, not
    on the store or the output it starts from: a run replaces the store and
    appends its lines.  Running the script again on the same files
    therefore leaves the store as the first run left it. *)
Theorem main_ignores_prior_store (py_float : string -> option Py.float)
    (fs : files) :
  exists d lines,
    (forall w, main py_float fs w =
                 {| disk := d; pending := None; stdout := stdout w ++ lines |})
    /\ (forall w, disk (main py_float fs (main py_float fs w))
                  = disk (main py_float fs w)).
Proof.
  assert (exists d lines,
            forall w, main py_float fs w =
                        {| disk := d; pending := None;
                           stdout := stdout w ++ lines |}) as H.
  { destruct (load py_float fs fresh_db) as [e|d'] eqn:Hload.
    - do 2 eexists. intros w. apply (main_when_load_raises py_float fs w Hload).
    - apply load_fresh_ok in Hload.
      destruct Hload as (show_rows & episode_rows & Hloadable & ->).
      destruct (@query_results_exist (loaded_db show_rows episode_rows) _ _
                  eq_refl eq_refl)
        as (r1 & r2 & r3 & r4 & H1 & H2 & H3 & H4).
      do 2 eexists. intros w.
      destruct (@main_when_load_returns py_float fs w show_rows episode_rows Hloadable)
        as (r1' & r2' & r3' & r4' & H1' & H2' & H3' & H4' & ->).
      rewrite H1 in H1'. rewrite H2 in H2'. rewrite H3 in H3'. rewrite H4 in H4'.
      injection H1' as <-. injection H2' as <-.
      injection H3' as <-. injection H4' as <-.
      reflexivity. }
  destruct H as (d & lines & Hmain). exists d, lines.
  split; [exact Hmain|]. intros w. now rewrite !Hmain.
Qed.

Lemma banner_not_in_failed_run (py_float : string -> option Py.float)
    (fs : files) (e : exn) :
  ~ In reports_banner (created_line :: failed_run_lines py_float fs e).
Proof.
  unfold failed_run_lines, load_lines, handler_lines.
  intros [H | H]; [discriminate H|].
  apply in_app_iff in H. destruct H as [H | H].
  - destruct (load_shows py_float fs fresh_db) as [?|d1]; [destruct H|].
    destruct H as [H | H]; [discriminate H|].
    destruct (load_episodes py_float fs d1); [destruct H|].
    destruct H as [H | []]. discriminate H.
  - destruct (is_FileNotFoundError e); simpl in H;
      repeat destruct H as [H | H]; try discriminate H; destruct H.
Qed.

(** X19. The reports run exactly when the load went through: the banner of the
    report phase is printed by a run if and only if both files are there,
    every row converts and fits, and no show code is repeated. *)
Theorem reports_run_iff_loadable (py_float : string -> option Py.float)
    (fs : files) (w : world)
    (Hclean : ~ In reports_banner (stdout w)) :
  In reports_banner (stdout (main py_float fs w)) <->
  exists show_rows episode_rows, loadable py_float fs show_rows episode_rows.
Proof.
  split.
  - intros Hin.
    destruct (load py_float fs fresh_db) as [e|d'] eqn:Hload.
    + rewrite (main_when_load_raises py_float fs w Hload) in Hin. simpl in Hin.
      apply in_app_iff in Hin. destruct Hin as [Hin | Hin]; [contradiction|].
      now apply banner_not_in_failed_run in Hin.
    + apply load_fresh_ok in Hload.
      destruct Hload as (show_rows & episode_rows & Hloadable & _). eauto.
  - intros (show_rows & episode_rows & Hloadable).
    destruct (@main_when_load_returns py_float fs w show_rows episode_rows Hloadable)
      as (r1 & r2 & r3 & r4 & _ & _ & _ & _ & ->).
    simpl. apply in_app_iff. right. simpl. auto.
Qed.

Lemma reports_run_iff_loadable_witness :
  ~ In reports_banner (stdout (main example_float bad_rating_files blank_world)).
Proof.
  intros Hin.
  apply (@reports_run_iff_loadable example_float bad_rating_files blank_world)
    in Hin; [|intros []].
  destruct Hin as (show_rows & episode_rows & sreader & ereader
                   & _ & Hefile & _ & _ & Herows).
  injection Hefile as <-. discriminate Herows.
Defined.

(** X20. On two sources that have a header and no row, the run goes through the
    three phases, leaves both tables empty, and prints the count zero and
    the four sections with their lines for an empty result. *)
Theorem empty_sources_run (py_float : string -> option Py.float) (fs : files)
    (w : world)
    (Hshows : show_csv fs = Some [])
    (Hepisodes : episode_csv fs = Some []) :
  main py_float fs w =
    {| disk := fresh_db; pending := None;
       stdout := stdout w ++ empty_run_lines |}.
Proof.
  assert (loadable py_float fs [] []) as Hloadable.
  { exists [], []. repeat split; try assumption. constructor. }
  destruct (@main_when_load_returns py_float fs w [] [] Hloadable)
    as (r1 & r2 & r3 & r4 & H1 & H2 & H3 & H4 & ->).
  injection H1 as <-. injection H2 as <-. injection H3 as <-. injection H4 as <-.
  reflexivity.
Qed.

Lemma empty_sources_run_witness :
  stdout (main example_float {| show_csv := Some []; episode_csv := Some [] |}
            blank_world) = empty_run_lines.
Proof.
  now rewrite (@empty_sources_run example_float
                 {| show_csv := Some []; episode_csv := Some [] |}
                 blank_world eq_refl eq_refl).
Defined.

(** X21. [ingest_data] relies on the schema initializer: run on a Show table
    that already holds a code of the show source, as in a second load
    without a new initialization, it raises the violation of the primary
    key of [shows] and commits nothing. *)
Theorem load_on_loaded_table_violates_key (py_float : string -> option Py.float)
    (fs : files) (reader : list ShowCsv.row) (show_rows : list Shows.row)
    (w : world) (t : Sql.table Shows.row) (row : ShowCsv.row) (r : Shows.row)
    (Hfile : show_csv fs = Some reader)
    (Hrows : map_result (show_row_of py_float) reader = ok show_rows)
    (Htable : shows (disk w) = Some t)
    (Hschema : Sql.tbl_schema t = Shows.schema)
    (Hrow : In row reader) (Hr : In r (Sql.rows t))
    (Hcode : Shows.Code r = ShowCsv.Code row) :
  exists w',
    ingest_data py_float fs w = (inl shows_code_violation, w')
    /\ disk w' = disk w.
Proof.
  destruct (ingest_data_load py_float fs w) as (w' & n & Hrun & Hdisk & _).
  exists w'.
  assert (load py_float fs (disk w) = inl shows_code_violation) as Hload.
  { unfold load, load_shows. rewrite Hfile. simpl.
    apply map_result_split in Hrows. destruct Hrows as (stuples & Hst & Hbound).
    rewrite Hst. simpl. unfold shows_exists. rewrite Htable. simpl.
    destruct (fold_steps insert_into_shows stuples (disk w)) as [e|d1] eqn:Hfold.
    - simpl. f_equal.
      apply (proj2 (insert_shows_error stuples (disk w) Htable Hfold) show_rows).
      exact Hbound.
    - exfalso.
      destruct (insert_shows_ok stuples (disk w) Htable Hschema Hfold)
        as (_ & Hnew & _).
      apply (Hnew (ShowCsv.Code row)).
      + rewrite (show_tuples_codes _ _ Hst). now apply in_map.
      + rewrite <- Hcode. now apply in_map. }
  rewrite Hrun, Hload in *. simpl. auto.
Qed.

Lemma load_on_loaded_table_violates_key_witness :
  fst (ingest_data example_float scenario_files
         {| disk := scenario_db; pending := None; stdout := [] |})
  = inl shows_code_violation.
Proof.
  destruct (@load_on_loaded_table_violates_key example_float scenario_files
              _ (Sql.rows scenario_shows)
              {| disk := scenario_db; pending := None; stdout := [] |}
              scenario_shows
              (show_csv_row "S1" "Alpha" "4.0" "1,000" "2")
              (show_row "S1" "Alpha" (Some (Py.Fin 4)) (Some 1000%Z) (Some 2%Z))
              eq_refl eq_refl eq_refl eq_refl
              (or_introl eq_refl) (or_introl eq_refl) eq_refl)
    as (w' & -> & _).
  reflexivity.
Defined.

(** * Field conversions: ASCII fields *)

Lemma ascii_isdigit (c : ascii) :
  is_ascii c = true -> Py.unicode_isdigit c = Py.is_ascii_digit c.
Proof.
  destruct c as [[] [] [] [] [] [] [] []]; cbv; intros H;
    try discriminate H; reflexivity.
Qed.

(** X22. On a Season or Episode field of ASCII characters, at most 4300 of them,
    the conversion never raises: a non-empty field of decimal digits gives
    the integer it denotes, leading zeros allowed, and every other field,
    the empty one or one with a sign, a blank, a point or a letter, gives
    null. *)
Theorem int_if_isdigit_ascii (x : string)
    (Hascii : Forall (fun c => is_ascii c = true) (list_ascii_of_string x))
    (Hlen : List.length (list_ascii_of_string x) <= Py.max_str_digits) :
  (Py.isdigit x = true <->
   list_ascii_of_string x <> []
   /\ Forall (fun c => Py.is_ascii_digit c = true) (list_ascii_of_string x))
  /\ int_if_isdigit x =
       ok (if Py.isdigit x then Some (decimal_value (list_ascii_of_string x))
           else None).
Proof.
  assert (Py.isdigit x = true <->
          list_ascii_of_string x <> []
          /\ Forall (fun c => Py.is_ascii_digit c = true) (list_ascii_of_string x))
    as Hiff.
  { unfold Py.isdigit. destruct (list_ascii_of_string x) as [|c cs] eqn:Hx.
    - split; [discriminate | intros [H _]; now elim H].
    - rewrite forallb_forall, Forall_forall. rewrite Forall_forall in Hascii.
      split.
      + intros H. split; [discriminate|]. intros d Hd.
        rewrite <- ascii_isdigit; auto.
      + intros [_ H] d Hd. rewrite ascii_isdigit; auto. }
  split; [exact Hiff|].
  destruct (Py.isdigit x) eqn:Hd.
  - destruct (proj1 Hiff eq_refl) as [Hne Hall].
    now apply int_if_isdigit_decimal.
  - now apply int_if_isdigit_null.
Qed.

Lemma int_if_isdigit_ascii_witness :
  int_if_isdigit "007" = ok (Some 7%Z) /\ int_if_isdigit "-1" = ok None.
Proof.
  split.
  - apply (proj2 (@int_if_isdigit_ascii "007"
                    ltac:(repeat constructor)
                    ltac:(apply Nat.leb_le; reflexivity))).
  - apply (proj2 (@int_if_isdigit_ascii "-1"
                    ltac:(repeat constructor)
                    ltac:(apply Nat.leb_le; reflexivity))).
Defined.
